(** * Mother Goose Club chef: spreadsheet rows against downloaded files

    A shallow embedding of [MotherGooseClubChef.load_content_from_spreadsheet]
    (sushichef.py, lines 107-183) and of the topic tree that
    [construct_channel] builds from its result (lines 86-105), with
    theorems about the file bound to each spreadsheet cell, the output
    of the pass and the nodes made for the bound files.

    Python [str] values are modelled by [string]: one [ascii] per code
    point, so the development covers titles and filenames whose code
    points are below 256 (Latin-1).  [lower], [strip], [replace],
    [startswith], [endswith], [in] and [len] follow CPython on that range,
    [join] and [splitext] follow [posixpath].
    The dictionaries [TOPIC_FILENAME_PREFIXES] and [self.content_by_type]
    are finite maps with string keys. *)

From Stdlib Require Import Ascii String List Bool Arith Lia.
From stdpp Require Import base option gmap strings.
Import ListNotations.

Local Open Scope string_scope.
Local Open Scope list_scope.

(** ** Python string primitives *)

Module PyStr.

(** Truth value of a [str]: the empty string is falsy. *)
Definition truthy (s : string) : bool :=
  match s with
  | EmptyString => false
  | String _ _ => true
  end.

(** [c.isspace()] for a code point below 256: TAB..CR, FS..US, space,
    NEL (0x85) and NBSP (0xA0). *)
Definition isspace (c : ascii) : bool :=
  let n := nat_of_ascii c in
  (((9 <=? n) && (n <=? 13)) || ((28 <=? n) && (n <=? 32))
   || (n =? 133) || (n =? 160))%nat.

Fixpoint lstrip (s : string) : string :=
  match s with
  | EmptyString => EmptyString
  | String c s' => if isspace c then lstrip s' else s
  end.

Fixpoint rstrip (s : string) : string :=
  match s with
  | EmptyString => EmptyString
  | String c s' =>
      let r := rstrip s' in
      if isspace c && negb (truthy r) then EmptyString else String c r
  end.

(** [s.strip()] *)
Definition strip (s : string) : string := rstrip (lstrip s).

(** [c.lower()] for a code point below 256: A..Z and the Latin-1
    capitals 0xC0..0xDE (the multiplication sign 0xD7 apart) move up by 32. *)
Definition lower_char (c : ascii) : ascii :=
  let n := nat_of_ascii c in
  if (((65 <=? n) && (n <=? 90))
      || ((192 <=? n) && (n <=? 222) && negb (n =? 215)))%nat
  then ascii_of_nat (n + 32)
  else c.

(** [s.lower()] *)
Fixpoint lower (s : string) : string :=
  match s with
  | EmptyString => EmptyString
  | String c s' => String (lower_char c) (lower s')
  end.

(** [s.startswith(p)] *)
Definition startswith (s p : string) : bool := String.prefix p s.

(** [s.endswith(suf)]: some suffix of [s] is [suf]. *)
Fixpoint endswith (s suf : string) : bool :=
  String.eqb s suf
  || match s with
     | EmptyString => false
     | String _ s' => endswith s' suf
     end.

(** [sub in s] *)
Fixpoint contains (sub s : string) : bool :=
  String.prefix sub s
  || match s with
     | EmptyString => false
     | String _ s' => contains sub s'
     end.

(** [s.replace(old, new)] for a non-empty [old]: occurrences are found
    from the left and do not overlap.  [skip] counts the characters of
    the occurrence just replaced that are still to be dropped. *)
Fixpoint replace_from (old new : string) (skip : nat) (s : string) : string :=
  match s with
  | EmptyString => EmptyString
  | String c s' =>
      match skip with
      | S k => replace_from old new k s'
      | O =>
          if String.prefix old s
          then new +:+ replace_from old new (String.length old - 1) s'
          else String c (replace_from old new 0 s')
      end
  end.

(** With an empty [old] Python puts [new] before every character and
    at the end. *)
Fixpoint intersperse (new s : string) : string :=
  match s with
  | EmptyString => new
  | String c s' => new +:+ String c (intersperse new s')
  end.

Definition replace (old new s : string) : string :=
  if truthy old then replace_from old new 0 s else intersperse new s.

End PyStr.

Import PyStr.

(** ** Run constants (sushichef.py, lines 30-38) *)

Definition TOPIC_FILENAME_PREFIXES : gmap string (list string) :=
  list_to_map
    [ ("SH Videos", ["SH.ANIM"; "SH.LIVE"]);
      ("Mini Books", ["Mini Book"]);
      ("Activity Books", ["Website.Activity Book"]);
      ("Board Books", ["Board Book"]);
      ("MGCL/MGC Anim Videos", ["MGC.ANIM"; "MGC.LIVE"; "MGC.LIVE.EPISODE"]);
      ("PHL Videos", ["PH.ANIM"; "PH.LIVE"]);
      ("MGC ABC/Counting Videos",
        ["MGC.ANIM"; "MGCB.2D.ANIM"; "MGCB.3D.ANIM"; "MGC.LIVE"]) ].

(** ** The search for one cell (lines 133-173) *)

Definition anim_str : string := "(Anim)".
Definition live_str : string := "(Live)".

(** The list walked by [for remove in ...] on line 150. *)
Definition removals : list string :=
  [anim_str; live_str; "(2D Anim)"; "(3D Anim)"].

(** The table of line 161. *)
Definition replacements : list (string * string) :=
  [ (",", ""); (" Group", ".Group"); (" Noa", ".Noa");
    (" Robert", ".Robert"); (" Caralyn", ".Caralyn") ].

(** Lines 150-151: [value = value.replace(remove, '').strip()] for each
    marker in turn. *)
Definition remove_markers (value : string) : string :=
  fold_left (fun v remove => strip (replace remove "" v)) removals value.

(** Lines 135-139: the token list of the category, overridden for a
    2-D or 3-D title. *)
Definition choose_prefix_list (tokens : list string) (value : string)
  : list string :=
  if contains "(2D Anim)" value then ["MGCB.2D.ANIM"]
  else if contains "(3D Anim)" value then ["MGCB.3D.ANIM"]
  else tokens.

(** Line 153: ["{}.{}.".format(prefix, value)]. *)
Definition format_prefix (prefix value : string) : string :=
  prefix +:+ "." +:+ value +:+ ".".

(** Line 158: the case-insensitive test of a file name. *)
Definition direct_match (file_prefix resource : string) : bool :=
  startswith (lower resource) (lower file_prefix).

(** Line 163: the same test after one substitution in the prefix. *)
Definition replaced_match (file_prefix resource : string)
    (r : string * string) : bool :=
  startswith (lower resource) (lower (replace (fst r) (snd r) file_prefix)).

(** Lines 162-164: every substitution that matches assigns
    [resource_file = resource]. *)
Definition try_replacements (file_prefix resource : string)
    (resource_file : option string) : option string :=
  fold_left
    (fun rf r => if replaced_match file_prefix resource r then Some resource else rf)
    replacements resource_file.

(** Lines 156-164: one pass over the directory listing, collecting the
    direct matches and letting the substitutions overwrite
    [resource_file]. *)
Definition scan_step (file_prefix : string)
    (acc : list string * option string) (resource : string)
  : list string * option string :=
  if direct_match file_prefix resource
  then (fst acc ++ [resource], snd acc)
  else (fst acc, try_replacements file_prefix resource (snd acc)).

Definition scan_resources (file_prefix : string) (resources : list string)
    (resource_file : option string) : list string * option string :=
  fold_left (scan_step file_prefix) resources ([], resource_file).

(** [not resource_file or len(found_file) < len(resource_file)]
    (line 169). *)
Definition improves (found_file : string) (resource_file : option string)
  : bool :=
  match resource_file with
  | None => true
  | Some r => negb (truthy r) || (String.length found_file <? String.length r)%nat
  end.

Definition is_mov (found_file : string) : bool :=
  endswith (lower found_file) ".mov".

(** Lines 169-173: the body of [for found_file in found_files]. *)
Definition keep_shorter (resource_file : option string) (found_file : string)
  : option string :=
  if improves found_file resource_file
  then if is_mov found_file then resource_file else Some found_file
  else resource_file.

(** The variables the loop over [prefix_list] reads and rebinds. *)
Record search : Type := Search {
  value : string;
  prefixes : list string;
  resource_file : option string
}.

(** Lines 141-173: the body of [for prefix in prefix_list]. *)
Definition try_prefix (resources : list string) (st : search) (prefix : string)
  : search :=
  if contains anim_str (value st) && contains "LIVE" prefix then st
  else if contains live_str (value st) && contains "ANIM" prefix then st
  else
    let value' := remove_markers (value st) in
    let file_prefix := format_prefix prefix value' in
    let '(found_files, rf) :=
      scan_resources file_prefix resources (resource_file st) in
    {| value := value';
       prefixes := prefixes st ++ [file_prefix];
       resource_file := fold_left keep_shorter found_files rf |}.

(** Lines 133-173 for a stripped cell value and the tokens of its
    category. *)
Definition resolve (tokens : list string) (stripped : string)
    (resources : list string) : search :=
  fold_left (try_prefix resources)
    (choose_prefix_list tokens stripped)
    {| value := stripped; prefixes := []; resource_file := None |}.

(** ** The chef's state and the pass over the sheet (lines 107-183) *)

(** An element of a list of [self.content_by_type]:
    [{'title': title, 'file': resource_file}]. *)
Record content : Type := Content {
  title : string;
  file : string
}.

(** The two [print] calls of lines 180 and 183, by their argument. *)
Inductive line : Type :=
  | Adding_content (c : content)
  | Unable_to_find_file_for (prefixes : list string).

Record chef : Type := Chef {
  content_by_type : gmap string (list content);
  stdout : list line
}.

Inductive exn : Type :=
  | KeyError (key : string)
  | IndexError.

(** A statement either returns or raises; what it did to the chef and
    what it printed before is kept in both cases. *)
Inductive outcome (A : Type) : Type :=
  | Returned (a : A)
  | Raised (e : exn).

Arguments Returned {A} a.
Arguments Raised {A} e.

Definition stmt (A : Type) : Type := chef -> outcome A * chef.

Definition ret {A : Type} (a : A) : stmt A := fun s => (Returned a, s).

Definition raise {A : Type} (e : exn) : stmt A := fun s => (Raised e, s).

Definition bind {A B : Type} (m : stmt A) (k : A -> stmt B) : stmt B :=
  fun s =>
    match m s with
    | (Returned a, s') => k a s'
    | (Raised e, s') => (Raised e, s')
    end.

Notation "m >> k" := (bind m (fun _ => k))
  (at level 90, right associativity).

(** [for x in xs: body(x)] *)
Fixpoint for_each {A : Type} (xs : list A) (body : A -> stmt unit) : stmt unit :=
  match xs with
  | [] => ret tt
  | x :: xs' => body x >> for_each xs' body
  end.

Definition print (l : line) : stmt unit :=
  fun s => (Returned tt,
            {| content_by_type := content_by_type s; stdout := stdout s ++ [l] |}).

(** Lines 177-181 without the [print]: create the list of the type if
    it is missing, then append. *)
Definition append_content (type : string) (c : content) : stmt unit :=
  fun s =>
    (Returned tt,
     {| content_by_type :=
          <[type := default [] (content_by_type s !! type) ++ [c]]>
            (content_by_type s);
        stdout := stdout s |}).

(** The truth value of [resource_file] on line 176. *)
Definition found (resource_file : option string) : option string :=
  match resource_file with
  | Some f => if truthy f then Some f else None
  | None => None
  end.

(** Lines 130-183 for one cell: [type] is the stripped column name and
    [cell_value] the value of the cell ([None] for an empty cell). *)
Definition process_cell (resources : list string) (type : string)
    (cell_value : option string) : stmt unit :=
  match cell_value with
  | None => ret tt
  | Some v =>
      if truthy v then
        let stripped := strip v in
        let title := stripped in
        match TOPIC_FILENAME_PREFIXES !! type with
        | None => raise (KeyError type)
        | Some tokens =>
            let st := resolve tokens stripped resources in
            match found (resource_file st) with
            | Some f =>
                let c := {| title := title; file := f |} in
                print (Adding_content c) >> append_content type c
            | None => print (Unable_to_find_file_for (prefixes st))
            end
        end
      else ret tt
  end.

(** The active worksheet as the code reads it: [max_row], [max_column]
    and [sheet.cell(row, column).value]. *)
Record worksheet : Type := Worksheet {
  max_row : nat;
  max_column : nat;
  cell : nat -> nat -> option string
}.

(** Lines 117-119: [cell_obj.value or ''] for every column of row 1. *)
Definition read_col_names (sheet : worksheet) : list string :=
  map (fun c => match cell sheet 1 c with
                | Some v => if truthy v then v else ""
                | None => ""
                end)
      (seq 1 (max_column sheet)).

(** Lines 123-183: the body of the inner loop. *)
Definition visit (sheet : worksheet) (resources col_names : list string)
    (r c : nat) : stmt unit :=
  match col_names !! (c - 1) with
  | None => raise IndexError
  | Some name =>
      if truthy name
      then process_cell resources (strip name) (cell sheet r c)
      else ret tt
  end.

(** Lines 121-183.  [resources] is the listing [os.listdir] returns,
    taken to be the same at every cell. *)
Definition load_content_from_spreadsheet (sheet : worksheet)
    (resources : list string) : stmt unit :=
  let col_names := read_col_names sheet in
  for_each (seq 2 (max_row sheet - 1)) (fun r =>
    for_each (seq 1 (max_column sheet)) (fun c =>
      visit sheet resources col_names r c)).

(** [self.content_by_type = {}] and nothing printed yet. *)
Definition fresh : chef := {| content_by_type := ∅; stdout := [] |}.

(** A sheet given by its rows, row 1 first; cells outside are empty. *)
Definition sheet_of_rows (rows : list (list (option string))) : worksheet :=
  {| max_row := length rows;
     max_column := fold_right (fun row n => Nat.max (length row) n) 0 rows;
     cell := fun r c =>
       match rows !! (r - 1) with
       | Some row => match row !! (c - 1) with Some v => v | None => None end
       | None => None
       end |}.

(** ** Vocabulary of the statements *)

(** One of the four variant markers occurs in the string. *)
Definition has_marker (s : string) : bool :=
  existsb (fun remove => contains remove s) removals.

(** Some substitution of the table makes the name match (line 163 for
    one of the pairs). *)
Definition fallback_match (file_prefix resource : string) : bool :=
  existsb (replaced_match file_prefix resource) replacements.

(** A direct match the loop of lines 165-173 may select. *)
Definition eligible (file_prefix resource : string) : bool :=
  direct_match file_prefix resource && negb (is_mov resource).

(** A name the else branch of lines 160-164 assigns. *)
Definition fallback_only (file_prefix resource : string) : bool :=
  negb (direct_match file_prefix resource) && fallback_match file_prefix resource.

(** The candidate prefixes the loop over the tokens builds, from the
    value it starts with (lines 141-154, without the search). *)
Fixpoint candidate_prefixes (prefix_list : list string) (value : string)
  : list string :=
  match prefix_list with
  | [] => []
  | prefix :: rest =>
      if contains anim_str value && contains "LIVE" prefix
      then candidate_prefixes rest value
      else if contains live_str value && contains "ANIM" prefix
      then candidate_prefixes rest value
      else
        let value' := remove_markers value in
        format_prefix prefix value' :: candidate_prefixes rest value'
  end.

(** Lines 155-173 for one candidate prefix, from the file kept so far. *)
Definition search_prefix (resources : list string)
    (resource_file : option string) (file_prefix : string) : option string :=
  fold_left keep_shorter
    (fst (scan_resources file_prefix resources resource_file))
    (snd (scan_resources file_prefix resources resource_file)).

(** The first of the shortest names of a list. *)
Fixpoint first_shortest (l : list string) : option string :=
  match l with
  | [] => None
  | f :: l' =>
      match first_shortest l' with
      | Some g => if (String.length g <? String.length f)%nat then Some g else Some f
      | None => Some f
      end
  end.

(** No name of the listing is matched through a substitution only. *)
Definition no_fallback (candidates resources : list string) : Prop :=
  forall p g, In p candidates -> In g resources -> fallback_only p g = false.

(** The direct matches a row may select, in the order the code meets
    them: candidate prefix by candidate prefix, each in listing order. *)
Definition eligible_matches (candidates resources : list string) : list string :=
  flat_map (fun p => List.filter (eligible p) resources) candidates.

(** The cells of rows 2.. in the order the two loops visit them. *)
Definition cells (sheet : worksheet) : list (nat * nat) :=
  flat_map (fun r => map (pair r) (seq 1 (max_column sheet)))
    (seq 2 (max_row sheet - 1)).

(** The pass over a list of cells. *)
Definition run_cells (sheet : worksheet) (resources : list string)
    (cs : list (nat * nat)) : stmt unit :=
  for_each cs (fun rc =>
    visit sheet resources (read_col_names sheet) (fst rc) (snd rc)).

(** [self.col_names[c-1]]: the header of column [c], [''] when the
    header cell is empty. *)
Definition col_name (sheet : worksheet) (c : nat) : string :=
  match cell sheet 1 c with
  | Some v => if truthy v then v else ""
  | None => ""
  end.

(** The category of the cells of column [c] (line 126). *)
Definition cell_type (sheet : worksheet) (c : nat) : string :=
  strip (col_name sheet c).

(** A non-empty cell under a named column whose category has no entry
    in [TOPIC_FILENAME_PREFIXES]. *)
Definition unconfigured (sheet : worksheet) (rc : nat * nat) : bool :=
  truthy (col_name sheet (snd rc))
  && match cell sheet (fst rc) (snd rc) with
     | Some v => truthy v
     | None => false
     end
  && match TOPIC_FILENAME_PREFIXES !! cell_type sheet (snd rc) with
     | Some _ => false
     | None => true
     end.

(** The sheet with one cell emptied. *)
Definition blank (sheet : worksheet) (r c : nat) : worksheet :=
  {| max_row := max_row sheet;
     max_column := max_column sheet;
     cell := fun r' c' =>
       if ((r' =? r) && (c' =? c))%nat then None else cell sheet r' c' |}.

(** What one cell does to the chef: nothing, a [KeyError], a line
    about the missing file, or a line and an entry. *)
Inductive cell_effect (resources : list string) (type : string)
    (cell_value : option string) (s : chef) : outcome unit * chef -> Prop :=
  | effect_empty :
      match cell_value with Some v => truthy v = false | None => True end ->
      cell_effect resources type cell_value s (Returned tt, s)
  | effect_key_error v :
      cell_value = Some v -> truthy v = true ->
      TOPIC_FILENAME_PREFIXES !! type = None ->
      cell_effect resources type cell_value s (Raised (KeyError type), s)
  | effect_unable v tokens :
      cell_value = Some v -> truthy v = true ->
      TOPIC_FILENAME_PREFIXES !! type = Some tokens ->
      found (resource_file (resolve tokens (strip v) resources)) = None ->
      cell_effect resources type cell_value s
        (Returned tt,
         {| content_by_type := content_by_type s;
            stdout := stdout s
                      ++ [Unable_to_find_file_for
                            (prefixes (resolve tokens (strip v) resources))] |})
  | effect_adding v tokens f :
      cell_value = Some v -> truthy v = true ->
      TOPIC_FILENAME_PREFIXES !! type = Some tokens ->
      found (resource_file (resolve tokens (strip v) resources)) = Some f ->
      cell_effect resources type cell_value s
        (Returned tt,
         {| content_by_type :=
              <[type := default [] (content_by_type s !! type)
                        ++ [ {| title := strip v; file := f |} ]]>
                (content_by_type s);
            stdout := stdout s
                      ++ [Adding_content {| title := strip v; file := f |}] |}).

(** ** The trace of the pass *)

(** What the visit of one cell comes to. *)
Inductive cell_result : Type :=
  | Skipped
  | Unconfigured (type : string)
  | Unresolved (prefixes : list string)
  | Resolved (type : string) (c : content).

(** Lines 123-183 for the cell [rc], read as a result: the cell is
    skipped under an empty column name or when it is empty itself,
    the table is consulted next, and the search decides the rest. *)
Definition cell_result_of (sheet : worksheet) (resources : list string)
    (rc : nat * nat) : cell_result :=
  if truthy (col_name sheet (snd rc)) then
    match cell sheet (fst rc) (snd rc) with
    | Some v =>
        if truthy v then
          match TOPIC_FILENAME_PREFIXES !! cell_type sheet (snd rc) with
          | None => Unconfigured (cell_type sheet (snd rc))
          | Some tokens =>
              match found (resource_file (resolve tokens (strip v) resources)) with
              | Some f =>
                  Resolved (cell_type sheet (snd rc))
                    {| title := strip v; file := f |}
              | None => Unresolved (prefixes (resolve tokens (strip v) resources))
              end
          end
        else Skipped
    | None => Skipped
    end
  else Skipped.

(** The cells the pass gets through: those before the first cell that
    raises [KeyError], all of them when there is none. *)
Fixpoint before_abort (sheet : worksheet) (cs : list (nat * nat))
  : list (nat * nat) :=
  match cs with
  | [] => []
  | rc :: cs' =>
      if unconfigured sheet rc then [] else rc :: before_abort sheet cs'
  end.

(** The entries of one category among a list of results, in order. *)
Definition entries_of (type : string) (results : list cell_result)
  : list content :=
  flat_map (fun res =>
              match res with
              | Resolved t c => if String.eqb t type then [c] else []
              | _ => []
              end) results.

(** The lines a list of results prints, in order. *)
Definition lines_of (results : list cell_result) : list line :=
  flat_map (fun res =>
              match res with
              | Resolved _ c => [Adding_content c]
              | Unresolved ps => [Unable_to_find_file_for ps]
              | _ => []
              end) results.

(** The mapping holds, under each category, the entries of the results
    so far, and has no key for a category without entries. *)
Definition grouped (s : chef) (results : list cell_result) : Prop :=
  forall type,
    content_by_type s !! type
    = match entries_of type results with
      | [] => None
      | l => Some l
      end.

(** ** Building the topic tree (lines 67-70 and 90-103) *)

Module PyPath.

(** [s.rfind(c)] for a one-character [c]: the index of the last
    occurrence, [-1] when there is none. *)
Fixpoint rfind (c : ascii) (s : string) : Z :=
  match s with
  | EmptyString => (-1)%Z
  | String a s' =>
      let r := rfind c s' in
      if (0 <=? r)%Z then (r + 1)%Z
      else if Ascii.eqb a c then 0%Z else (-1)%Z
  end.

(** [posixpath.join(a, b)] *)
Definition join (a b : string) : string :=
  if startswith b "/" then b
  else if negb (truthy a) || endswith a "/" then a +:+ b
  else a +:+ "/" +:+ b.

(** [posixpath.splitext(p)]: the extension starts at the last dot,
    when that dot comes after the last slash and some character between
    the two is not a dot. *)
Definition splitext (p : string) : string * string :=
  let sepIndex := rfind "/" p in
  let dotIndex := rfind "." p in
  if (sepIndex <? dotIndex)%Z
     && existsb (fun i => negb (String.eqb (String.substring i 1 p) "."))
          (seq (Z.to_nat (sepIndex + 1))
               (Z.to_nat dotIndex - Z.to_nat (sepIndex + 1)))
  then (String.substring 0 (Z.to_nat dotIndex) p,
        String.substring (Z.to_nat dotIndex)
          (String.length p - Z.to_nat dotIndex) p)
  else (p, "").

End PyPath.

Import PyPath.

(** Lines 67-70.  [data_dir] is [os.path.abspath('chefdata')], which
    depends on the working directory; [CONTENT_ARCHIVE_VERSION] is 1. *)
Definition DOWNLOADS_DIR (data_dir : string) : string :=
  join data_dir "downloads".

Definition ARCHIVE_DIR (data_dir : string) : string :=
  join (DOWNLOADS_DIR data_dir) "archive_1".

Definition RESOURCES_DIR (data_dir : string) : string :=
  join (ARCHIVE_DIR data_dir) "Endless Learning".

(** The holder named in [LICENSE] (line 40). *)
Definition LICENSE : string := "Mother Goose Club".

(** The two kinds of node line 97 and line 101 make, with the path of
    the file added to the node. *)
Inductive content_node : Type :=
  | VideoNode (source_id title license video_file : string)
  | DocumentNode (source_id title license document_file : string).

Record topic_node : Type := TopicNode {
  topic_source_id : string;
  topic_title : string;
  children : list content_node
}.

(** Lines 95-103: the body of [for content_node in ...]. *)
Definition make_node (data_dir : string) (c : content) : content_node :=
  let full_path := join (RESOURCES_DIR data_dir) (file c) in
  if String.eqb (snd (splitext full_path)) ".mp4"
  then VideoNode (file c) (title c) LICENSE full_path
  else DocumentNode (file c) (title c) LICENSE full_path.

(** Lines 91-103: the topic of one key of [self.content_by_type]. *)
Definition make_topic (data_dir type : string) (entries : list content)
  : topic_node :=
  {| topic_source_id := type;
     topic_title := type;
     children := map (make_node data_dir) entries |}.

(** Lines 88-105 of [construct_channel]: the pass, started from an
    empty mapping, then one topic per key.  The result is the topics
    added to the channel, by their source id: the order in which the
    dictionary yields its keys is not kept by the finite map, and the
    channel node itself comes from the library. *)
Definition construct_channel (sheet : worksheet) (resources : list string)
    (data_dir : string) : outcome (gmap string topic_node) :=
  match load_content_from_spreadsheet sheet resources fresh with
  | (Returned _, s) =>
      Returned (map_imap (fun type entries => Some (make_topic data_dir type entries))
                  (content_by_type s))
  | (Raised e, _) => Raised e
  end.

(** The character occurs in the string. *)
Fixpoint occurs (c : ascii) (s : string) : bool :=
  match s with
  | EmptyString => false
  | String a s' => Ascii.eqb a c || occurs c s'
  end.

(** Every character of the string is a dot (so is the empty string). *)
Fixpoint all_dots (s : string) : bool :=
  match s with
  | EmptyString => true
  | String a s' => Ascii.eqb a "." && all_dots s'
  end.

(** The node is a video node. *)
Definition is_video (n : content_node) : bool :=
  match n with
  | VideoNode _ _ _ _ => true
  | DocumentNode _ _ _ _ => false
  end.

(** * Facts about the string primitives *)

Section StringFacts.

Implicit Types s t old new : string.

Lemma truthy_length s : truthy s = true <-> (0 < String.length s)%nat.
Proof. destruct s; simpl; split; intros; try lia; congruence. Qed.

Lemma prefix_nil_r s : String.prefix s "" = true -> s = "".
Proof. destruct s; simpl; [reflexivity | discriminate]. Qed.

(** A name that begins with the prefix also begins with it once both
    are lowered: an exact match is a case-insensitive match. *)
Lemma prefix_lower p s :
  String.prefix p s = true -> String.prefix (lower p) (lower s) = true.
Proof.
  revert s; induction p as [|a p IH]; intros [|b s]; simpl; try congruence.
  destruct (ascii_dec a b) as [->|]; [|discriminate].
  intros H. destruct (ascii_dec (lower_char b) (lower_char b)); [|congruence].
  now apply IH.
Qed.

Lemma length_app s t :
  String.length (s +:+ t) = (String.length s + String.length t)%nat.
Proof.
  induction s as [|c s IH]; [reflexivity|].
  change (String c s +:+ t) with (String c (s +:+ t)).
  cbn [String.length]. now rewrite IH.
Qed.

(** *** [strip] *)

Lemma length_lstrip s : (String.length (lstrip s) <= String.length s)%nat.
Proof. induction s as [|c s IH]; simpl; [lia|]. destruct (isspace c); simpl; lia. Qed.

Lemma length_rstrip s : (String.length (rstrip s) <= String.length s)%nat.
Proof.
  induction s as [|c s IH]; simpl; [lia|].
  destruct (isspace c && negb (truthy (rstrip s))); simpl; lia.
Qed.

Lemma length_strip s : (String.length (strip s) <= String.length s)%nat.
Proof.
  unfold strip. pose proof (length_rstrip (lstrip s)). pose proof (length_lstrip s). lia.
Qed.

Lemma lstrip_same_length s : String.length (lstrip s) = String.length s -> lstrip s = s.
Proof.
  destruct s as [|c s]; simpl; [reflexivity|].
  destruct (isspace c); [|reflexivity].
  pose proof (length_lstrip s). lia.
Qed.

Lemma rstrip_same_length s : String.length (rstrip s) = String.length s -> rstrip s = s.
Proof.
  induction s as [|c s IH]; simpl; [reflexivity|].
  destruct (isspace c && negb (truthy (rstrip s))); simpl; [discriminate|].
  intros H. f_equal. apply IH. lia.
Qed.

Lemma strip_same_length s : String.length (strip s) = String.length s -> strip s = s.
Proof.
  unfold strip. intros H.
  pose proof (length_rstrip (lstrip s)). pose proof (length_lstrip s).
  assert (Hl : lstrip s = s) by (apply lstrip_same_length; lia).
  rewrite Hl in *. now apply rstrip_same_length.
Qed.

Lemma rstrip_rstrip s : rstrip (rstrip s) = rstrip s.
Proof.
  induction s as [|c s IH]; simpl; [reflexivity|].
  destruct (isspace c && negb (truthy (rstrip s))) eqn:E; simpl; [reflexivity|].
  now rewrite IH, E.
Qed.

Lemma lstrip_head s :
  lstrip s = "" \/ exists c s', lstrip s = String c s' /\ isspace c = false.
Proof.
  induction s as [|c s IH]; simpl; [now left|].
  destruct (isspace c) eqn:E; [exact IH|]. right. now exists c, s.
Qed.

Lemma lstrip_rstrip_lstrip s : lstrip (rstrip (lstrip s)) = rstrip (lstrip s).
Proof.
  destruct (lstrip_head s) as [->|(c & s' & -> & Hc)]; [reflexivity|].
  simpl. rewrite Hc. simpl. now rewrite Hc.
Qed.

(** Stripping a stripped string changes nothing. *)
Lemma strip_strip s : strip (strip s) = strip s.
Proof. unfold strip. now rewrite lstrip_rstrip_lstrip, rstrip_rstrip. Qed.

(** *** [replace] with an empty replacement *)

Lemma length_replace_from old k s :
  (String.length (replace_from old "" k s) <= String.length s)%nat.
Proof.
  revert k; induction s as [|c s IH]; intros k; cbn [replace_from String.length]; [lia|].
  destruct k as [|k].
  - destruct (String.prefix old (String c s)).
    + change ("" +:+ ?x) with x.
      specialize (IH (String.length old - 1)%nat). lia.
    + cbn [String.length]. specialize (IH 0%nat). lia.
  - specialize (IH k). lia.
Qed.

Lemma length_replace old s :
  truthy old = true ->
  (String.length (replace old "" s) <= String.length s)%nat.
Proof. unfold replace. intros ->. apply length_replace_from. Qed.

(** Removing a marker that occurs makes the string strictly shorter. *)
Lemma length_replace_lt old s :
  truthy old = true -> contains old s = true ->
  (String.length (replace old "" s) < String.length s)%nat.
Proof.
  unfold replace. intros Hold. rewrite Hold.
  induction s as [|c s IH]; cbn [contains replace_from].
  - rewrite orb_false_r. intros H. apply prefix_nil_r in H. now subst.
  - destruct (String.prefix old (String c s)) eqn:E.
    + intros _. change ("" +:+ ?x) with x. cbn [String.length].
      pose proof (length_replace_from old (String.length old - 1) s). lia.
    + rewrite orb_false_l. intros H. apply IH in H. cbn [String.length]. lia.
Qed.

(** Where the marker does not occur, nothing is replaced. *)
Lemma replace_absent old new s :
  contains old s = false -> replace old new s = s.
Proof.
  unfold replace. destruct old as [|a old']; [destruct s; discriminate|]. simpl truthy. cbv iota.
  induction s as [|c s IH]; [reflexivity|].
  intros H. cbn [contains] in H. apply orb_false_iff in H as [Hp Hc].
  cbn [replace_from]. rewrite Hp. f_equal. now apply IH.
Qed.

End StringFacts.

(** The primitives on a few inputs. *)
Example strip_example :
  strip "  Numbers Song (3D Anim) " = "Numbers Song (3D Anim)"
  /\ strip "   " = "".
Proof. split; reflexivity. Qed.

Example replace_example :
  replace "(Anim)" "" "(An(Anim)im) x (Anim)" = "(Anim) x "
  /\ replace "aa" "b" "aaaaa" = "bba"
  /\ replace " Noa" ".Noa" "MGC.LIVE.Hello Noa." = "MGC.LIVE.Hello.Noa."
  /\ replace "" "-" "abc" = "-a-b-c-".
Proof. repeat split; reflexivity. Qed.

Example lower_example : lower "Board Book.A, B.PDF" = "board book.a, b.pdf".
Proof. reflexivity. Qed.

Example endswith_example :
  endswith (lower "x.MOV") ".mov" = true /\ endswith "x.mov.mp4" ".mov" = false.
Proof. split; reflexivity. Qed.

Example contains_example :
  contains "(Anim)" "Numbers Song (2D Anim)" = false
  /\ contains "LIVE" "MGC.LIVE.EPISODE" = true.
Proof. split; reflexivity. Qed.

(** * Marker removal (lines 150-151) *)

Section Markers.

Implicit Types s t v remove : string.

(** One round of the loop on line 150. *)
Local Abbreviation step remove v := (strip (replace remove "" v)).

Lemma remove_markers_unfold v :
  remove_markers v =
  step "(3D Anim)" (step "(2D Anim)" (step live_str (step anim_str v))).
Proof. reflexivity. Qed.

Lemma step_length remove v :
  truthy remove = true ->
  (String.length (step remove v) <= String.length v)%nat.
Proof.
  intros H. pose proof (length_strip (replace remove "" v)).
  pose proof (length_replace remove v H). lia.
Qed.

(** A round that keeps the length removed nothing and stripped nothing. *)
Lemma step_same_length remove v :
  truthy remove = true ->
  String.length (step remove v) = String.length v ->
  contains remove v = false /\ step remove v = v.
Proof.
  intros H E.
  pose proof (length_strip (replace remove "" v)) as Hs.
  pose proof (length_replace remove v H) as Hr.
  destruct (contains remove v) eqn:C.
  - pose proof (length_replace_lt remove v H C). lia.
  - split; [reflexivity|].
    rewrite (replace_absent _ _ _ C) in *. now apply strip_same_length.
Qed.

Lemma step_absent remove v :
  contains remove v = false -> strip v = v -> step remove v = v.
Proof. intros C S. now rewrite (replace_absent _ _ _ C). Qed.

Lemma remove_markers_stripped v : strip (remove_markers v) = remove_markers v.
Proof. rewrite remove_markers_unfold. apply strip_strip. Qed.

Lemma has_marker_false s :
  has_marker s = false <->
  contains anim_str s = false /\ contains live_str s = false
  /\ contains "(2D Anim)" s = false /\ contains "(3D Anim)" s = false.
Proof.
  unfold has_marker, removals. cbn [existsb].
  rewrite !orb_false_iff. tauto.
Qed.

(** The fixed points of marker removal are the stripped strings that
    hold no marker. *)
Lemma remove_markers_fixed s :
  remove_markers s = s <-> strip s = s /\ has_marker s = false.
Proof.
  rewrite has_marker_false. split.
  - intros E. rewrite remove_markers_unfold in E.
    remember (step anim_str s) as v1 eqn:H1.
    remember (step live_str v1) as v2 eqn:H2.
    remember (step "(2D Anim)" v2) as v3 eqn:H3.
    assert (L1 : (String.length v1 <= String.length s)%nat)
      by (rewrite H1; apply step_length; reflexivity).
    assert (L2 : (String.length v2 <= String.length v1)%nat)
      by (rewrite H2; apply step_length; reflexivity).
    assert (L3 : (String.length v3 <= String.length v2)%nat)
      by (rewrite H3; apply step_length; reflexivity).
    assert (L4 : (String.length s <= String.length v3)%nat)
      by (rewrite <- E at 1; apply step_length; reflexivity).
    destruct (step_same_length anim_str s eq_refl) as [C1 E1];
      [rewrite <- H1; lia|].
    rewrite <- H1 in E1. rewrite E1 in *. clear E1 v1.
    destruct (step_same_length live_str s eq_refl) as [C2 E2];
      [rewrite <- H2; lia|].
    rewrite <- H2 in E2. rewrite E2 in *. clear E2 v2.
    destruct (step_same_length "(2D Anim)" s eq_refl) as [C3 E3];
      [rewrite <- H3; lia|].
    rewrite <- H3 in E3. rewrite E3 in *. clear E3 v3.
    destruct (step_same_length "(3D Anim)" s eq_refl) as [C4 E4];
      [rewrite E; lia|].
    repeat split; try assumption.
    transitivity (strip (step "(3D Anim)" s)); [now rewrite E4|].
    rewrite strip_strip. exact E4.
  - intros (S & C1 & C2 & C3 & C4). rewrite remove_markers_unfold.
    rewrite (step_absent anim_str s C1 S), (step_absent live_str s C2 S).
    rewrite (step_absent "(2D Anim)" s C3 S). exact (step_absent "(3D Anim)" s C4 S).
Qed.

End Markers.

(** C3 (amended).  Marker removal is idempotent on a title exactly when
    the first pass leaves no marker behind: removing a marker can put a
    new one together, as in "(An(Anim)im)", and a second pass then
    removes that one too. *)
Theorem remove_markers_idempotent_iff (t : string) :
  remove_markers (remove_markers t) = remove_markers t
  <-> has_marker (remove_markers t) = false.
Proof.
  rewrite remove_markers_fixed. split.
  - now intros [_ H].
  - intros H. split; [apply remove_markers_stripped | exact H].
Qed.

(** C3 (counterexample).  The first pass over "(An(Anim)im)" leaves
    "(Anim)", the second pass leaves the empty string. *)
Lemma remove_markers_not_idempotent :
  remove_markers "(An(Anim)im)" = "(Anim)"
  /\ remove_markers (remove_markers "(An(Anim)im)") = ""
  /\ remove_markers (remove_markers "(An(Anim)im)") <> remove_markers "(An(Anim)im)".
Proof. repeat split; [reflexivity .. | discriminate]. Qed.

(** * The search for one candidate prefix (lines 155-173) *)

Section Search.

Implicit Types p q file_prefix : string.
Implicit Types f g r resource : string.
Implicit Types rf acc : option string.
Implicit Types rs resources found_files ps : list string.

Lemma try_replacements_spec p r rf :
  try_replacements p r rf = if fallback_match p r then Some r else rf.
Proof.
  unfold try_replacements, fallback_match.
  generalize replacements as l. intros l; revert rf.
  induction l as [|x l IH]; intros rf; cbn [fold_left existsb]; [reflexivity|].
  rewrite IH. destruct (replaced_match p r x); cbn [orb]; [|reflexivity].
  now destruct (existsb _ l).
Qed.

Lemma scan_step_spec p found_files rf r :
  scan_step p (found_files, rf) r =
  (found_files ++ (if direct_match p r then [r] else []),
   if fallback_only p r then Some r else rf).
Proof.
  unfold scan_step, fallback_only. cbn [fst snd].
  rewrite try_replacements_spec.
  destruct (direct_match p r); cbn [negb andb]; [reflexivity|].
  now rewrite app_nil_r.
Qed.

(** What the scan hands to the selection loop: the direct matches in
    listing order, and the last name matched through a substitution. *)
Lemma scan_fold p rs found_files rf :
  fold_left (scan_step p) rs (found_files, rf) =
  (found_files ++ List.filter (direct_match p) rs,
   fold_left (fun a r => if fallback_only p r then Some r else a) rs rf).
Proof.
  revert found_files rf; induction rs as [|r rs IH]; intros found_files rf;
    cbn [fold_left List.filter].
  - now rewrite app_nil_r.
  - rewrite scan_step_spec, IH. f_equal.
    destruct (direct_match p r); [now rewrite <- app_assoc | now rewrite app_nil_r].
Qed.

Lemma scan_resources_spec p rs rf :
  scan_resources p rs rf =
  (List.filter (direct_match p) rs,
   fold_left (fun a r => if fallback_only p r then Some r else a) rs rf).
Proof. unfold scan_resources. now rewrite scan_fold. Qed.

Lemma scan_no_fallback p rs rf :
  (forall g, In g rs -> fallback_only p g = false) ->
  snd (scan_resources p rs rf) = rf.
Proof.
  rewrite scan_resources_spec. cbn [snd].
  revert rf; induction rs as [|r rs IH]; intros rf H; cbn [fold_left]; [reflexivity|].
  rewrite (H r) by now left. apply IH. intros g Hg. apply H. now right.
Qed.

(** The substitution branch keeps or assigns, and what it assigns is a
    name of the listing that matched through a substitution only. *)
Lemma scan_snd_origin p rs rf :
  snd (scan_resources p rs rf) = rf
  \/ exists g, snd (scan_resources p rs rf) = Some g /\ In g rs
               /\ fallback_only p g = true.
Proof.
  rewrite scan_resources_spec. cbn [snd].
  revert rf; induction rs as [|r rs IH]; intros rf; cbn [fold_left]; [now left|].
  destruct (fallback_only p r) eqn:E.
  - right. destruct (IH (Some r)) as [->|(g & -> & Hg & Hf)].
    + exists r. repeat split; [now left | exact E].
    + exists g. repeat split; [now right | exact Hf].
  - destruct (IH rf) as [->|(g & -> & Hg & Hf)]; [now left|].
    right. exists g. repeat split; [now right | exact Hf].
Qed.

Lemma scan_snd_some p rs f :
  exists g, snd (scan_resources p rs (Some f)) = Some g.
Proof.
  destruct (scan_snd_origin p rs (Some f)) as [->|(g & -> & _)]; eauto.
Qed.

(** *** The selection loop *)

Lemma keep_shorter_mov rf f : is_mov f = true -> keep_shorter rf f = rf.
Proof. unfold keep_shorter. intros ->. now destruct (improves f rf). Qed.

Lemma keep_shorter_cases rf f :
  keep_shorter rf f = rf
  \/ keep_shorter rf f = Some f /\ is_mov f = false /\ improves f rf = true.
Proof.
  unfold keep_shorter. destruct (improves f rf); [|now left].
  destruct (is_mov f); [now left | now right].
Qed.

Lemma keep_shorter_some r f : exists g, keep_shorter (Some r) f = Some g.
Proof. destruct (keep_shorter_cases (Some r) f) as [->|[-> _]]; eauto. Qed.

Lemma select_origin found_files rf :
  fold_left keep_shorter found_files rf = rf
  \/ exists f, fold_left keep_shorter found_files rf = Some f
               /\ In f found_files /\ is_mov f = false.
Proof.
  revert rf; induction found_files as [|g l IH]; intros rf; cbn [fold_left]; [now left|].
  destruct (IH (keep_shorter rf g)) as [->|(f & -> & Hf & Hm)].
  - destruct (keep_shorter_cases rf g) as [->|(-> & Hm & _)]; [now left|].
    right. exists g. repeat split; [now left | exact Hm].
  - right. exists f. repeat split; [now right | exact Hm].
Qed.

Lemma select_some found_files r :
  exists g, fold_left keep_shorter found_files (Some r) = Some g.
Proof.
  revert r; induction found_files as [|f l IH]; intros r; cbn [fold_left]; [eauto|].
  destruct (keep_shorter_some r f) as [g ->]. apply IH.
Qed.

(** Direct matches of a non-empty prefix are non-empty names. *)
Lemma direct_match_truthy p r :
  truthy p = true -> direct_match p r = true -> truthy r = true.
Proof.
  unfold direct_match, startswith. destruct p as [|a p]; [discriminate|].
  intros _. destruct r as [|b r]; [|reflexivity].
  cbn [lower]. intros H. apply prefix_nil_r in H. discriminate.
Qed.

Lemma format_prefix_truthy prefix v : truthy (format_prefix prefix v) = true.
Proof.
  apply truthy_length. unfold format_prefix. rewrite !length_app.
  cbn [String.length]. lia.
Qed.

(** Once a non-empty name is kept, the loop only moves to strictly
    shorter ones. *)
Lemma select_decreasing found_files r :
  (forall x, In x found_files -> truthy x = true) -> truthy r = true ->
  exists f, fold_left keep_shorter found_files (Some r) = Some f
            /\ truthy f = true
            /\ (String.length f <= String.length r)%nat.
Proof.
  revert r; induction found_files as [|x l IH]; intros r Hl Hr; cbn [fold_left].
  - exists r. repeat split; [exact Hr | lia].
  - assert (Hl' : forall y, In y l -> truthy y = true) by (intros y Hy; apply Hl; now right).
    destruct (keep_shorter_cases (Some r) x) as [->|(-> & _ & Hi)].
    + now apply IH.
    + cbn [improves] in Hi. rewrite Hr in Hi. cbn [negb orb] in Hi.
      apply Nat.ltb_lt in Hi.
      destruct (IH x Hl') as (f & E & Tf & Lf); [apply Hl; now left|].
      exists f. repeat split; [exact E | exact Tf | lia].
Qed.

(** After the loop the kept name is no longer than any direct match
    that is not a .mov file. *)
Lemma select_bound found_files rf g :
  (forall x, In x found_files -> truthy x = true) ->
  In g found_files -> is_mov g = false ->
  exists f, fold_left keep_shorter found_files rf = Some f
            /\ truthy f = true
            /\ (String.length f <= String.length g)%nat.
Proof.
  revert rf; induction found_files as [|x l IH]; intros rf Hl Hg Hm; [destruct Hg|].
  assert (Hl' : forall y, In y l -> truthy y = true) by (intros y Hy; apply Hl; now right).
  cbn [fold_left]. destruct Hg as [->|Hg]; [|now apply IH].
  assert (Tg : truthy g = true) by (apply Hl; now left).
  unfold keep_shorter. rewrite Hm.
  destruct (improves g rf) eqn:Hi.
  - now apply select_decreasing.
  - destruct rf as [r|]; [|discriminate]. cbn [improves] in Hi.
    apply orb_false_iff in Hi as [Tr Lr].
    apply negb_false_iff in Tr. apply Nat.ltb_ge in Lr.
    destruct (select_decreasing l r Hl' Tr) as (f & E & Tf & Lf).
    exists f. repeat split; [exact E | exact Tf | lia].
Qed.

(** The .mov files among the direct matches play no part. *)
Lemma select_skips_mov found_files rf :
  fold_left keep_shorter found_files rf =
  fold_left keep_shorter (List.filter (fun f => negb (is_mov f)) found_files) rf.
Proof.
  revert rf; induction found_files as [|x l IH]; intros rf; cbn [fold_left List.filter];
    [reflexivity|].
  destruct (is_mov x) eqn:E; cbn [negb].
  - rewrite keep_shorter_mov by exact E. apply IH.
  - cbn [fold_left]. apply IH.
Qed.

Lemma first_shortest_cons2 r x l :
  first_shortest (r :: x :: l) =
  if (String.length x <? String.length r)%nat
  then first_shortest (x :: l) else first_shortest (r :: l).
Proof.
  cbn [first_shortest]. destruct (first_shortest l) as [g|].
  - destruct (String.length g <? String.length x)%nat eqn:A;
    destruct (String.length x <? String.length r)%nat eqn:B;
    destruct (String.length g <? String.length r)%nat eqn:C;
    try reflexivity;
    rewrite ?A, ?B, ?C; try reflexivity;
    apply Nat.ltb_lt in A || apply Nat.ltb_ge in A;
    apply Nat.ltb_lt in B || apply Nat.ltb_ge in B;
    apply Nat.ltb_lt in C || apply Nat.ltb_ge in C; lia.
  - now destruct (String.length x <? String.length r)%nat.
Qed.

Lemma select_first_shortest_from l r :
  (forall x, In x l -> truthy x = true /\ is_mov x = false) -> truthy r = true ->
  fold_left keep_shorter l (Some r) = first_shortest (r :: l).
Proof.
  revert r; induction l as [|x l IH]; intros r Hl Hr; [reflexivity|].
  assert (Hl' : forall y, In y l -> truthy y = true /\ is_mov y = false)
    by (intros y Hy; apply Hl; now right).
  destruct (Hl x) as [Tx Mx]; [now left|].
  cbn [fold_left]. rewrite first_shortest_cons2.
  unfold keep_shorter. cbn [improves]. rewrite Hr, Mx. cbn [negb orb].
  destruct (String.length x <? String.length r)%nat; now apply IH.
Qed.

(** From an empty accumulator the loop returns the first of the
    shortest names among those it may select. *)
Lemma select_first_shortest l :
  (forall x, In x l -> truthy x = true /\ is_mov x = false) ->
  fold_left keep_shorter l None = first_shortest l.
Proof.
  destruct l as [|x l]; intros Hl; [reflexivity|].
  destruct (Hl x) as [Tx Mx]; [now left|].
  cbn [fold_left]. unfold keep_shorter at 2. cbn [improves]. rewrite Mx.
  apply select_first_shortest_from; [|exact Tx].
  intros y Hy. apply Hl. now right.
Qed.

End Search.

(** * The search for one cell (lines 133-173) *)

Section Resolve.

Implicit Types p q prefix v : string.
Implicit Types f g r : string.
Implicit Types rf : option string.
Implicit Types rs ps tokens : list string.

Variable resources : list string.

(** The loop body, with the search of lines 155-173 as one step. *)
Lemma try_prefix_spec (st : search) prefix :
  try_prefix resources st prefix =
  if contains anim_str (value st) && contains "LIVE" prefix then st
  else if contains live_str (value st) && contains "ANIM" prefix then st
  else {| value := remove_markers (value st);
          prefixes := prefixes st ++ [format_prefix prefix (remove_markers (value st))];
          resource_file :=
            search_prefix resources (resource_file st)
              (format_prefix prefix (remove_markers (value st))) |}.
Proof.
  unfold try_prefix, search_prefix.
  destruct (contains anim_str (value st) && contains "LIVE" prefix); [reflexivity|].
  destruct (contains live_str (value st) && contains "ANIM" prefix); [reflexivity|].
  now destruct (scan_resources _ resources (resource_file st)).
Qed.

(** The loop over the tokens splits into the derivation of the
    candidate prefixes and a left-to-right search over them. *)
Lemma fold_try_prefix tokens (st : search) :
  prefixes (fold_left (try_prefix resources) tokens st)
  = prefixes st ++ candidate_prefixes tokens (value st)
  /\ resource_file (fold_left (try_prefix resources) tokens st)
     = fold_left (search_prefix resources)
         (candidate_prefixes tokens (value st)) (resource_file st).
Proof.
  revert st; induction tokens as [|t tokens IH]; intros st;
    cbn [fold_left candidate_prefixes].
  - now rewrite app_nil_r.
  - destruct (IH (try_prefix resources st t)) as [IHp IHf].
    rewrite IHp, IHf, try_prefix_spec.
    destruct (contains anim_str (value st) && contains "LIVE" t); [now split|].
    destruct (contains live_str (value st) && contains "ANIM" t); [now split|].
    cbn [value prefixes resource_file fold_left]. now rewrite <- app_assoc.
Qed.

Lemma resolve_prefixes tokens v :
  prefixes (resolve tokens v resources)
  = candidate_prefixes (choose_prefix_list tokens v) v.
Proof. unfold resolve. now rewrite (proj1 (fold_try_prefix _ _)). Qed.

Lemma resolve_file tokens v :
  resource_file (resolve tokens v resources)
  = fold_left (search_prefix resources)
      (candidate_prefixes (choose_prefix_list tokens v) v) None.
Proof. unfold resolve. now rewrite (proj2 (fold_try_prefix _ _)). Qed.

Lemma candidate_prefixes_truthy tokens v p :
  In p (candidate_prefixes tokens v) -> truthy p = true.
Proof.
  revert v; induction tokens as [|t tokens IH]; intros v; cbn [candidate_prefixes];
    [intros []|].
  destruct (contains anim_str v && contains "LIVE" t); [apply IH|].
  destruct (contains live_str v && contains "ANIM" t); [apply IH|].
  intros [<-|H]; [apply format_prefix_truthy | now apply IH in H].
Qed.

(** *** Where the kept file comes from *)

Lemma search_prefix_origin rf p :
  search_prefix resources rf p = rf
  \/ exists f, search_prefix resources rf p = Some f /\ In f resources
               /\ (eligible p f = true \/ fallback_only p f = true).
Proof.
  unfold search_prefix.
  destruct (select_origin (fst (scan_resources p resources rf))
              (snd (scan_resources p resources rf))) as [->|(f & -> & Hf & Hm)].
  - destruct (scan_snd_origin p resources rf) as [->|(g & -> & Hg & Hfb)]; [now left|].
    right. exists g. repeat split; [exact Hg | now right].
  - right. exists f. rewrite scan_resources_spec in Hf. cbn [fst] in Hf.
    apply filter_In in Hf as [Hin Hd].
    repeat split; [exact Hin | left]. unfold eligible. now rewrite Hd, Hm.
Qed.

Lemma search_fold_origin ps rf :
  fold_left (search_prefix resources) ps rf = rf
  \/ exists f p, fold_left (search_prefix resources) ps rf = Some f
                 /\ In p ps /\ In f resources
                 /\ (eligible p f = true \/ fallback_only p f = true).
Proof.
  revert rf; induction ps as [|q ps IH]; intros rf; cbn [fold_left]; [now left|].
  destruct (IH (search_prefix resources rf q)) as [->|(f & p & -> & Hp & Hf & Hm)].
  - destruct (search_prefix_origin rf q) as [->|(f & -> & Hf & Hm)]; [now left|].
    right. exists f, q. repeat split; [now left | exact Hf | exact Hm].
  - right. exists f, p. repeat split; [now right | exact Hf | exact Hm].
Qed.

Lemma search_prefix_some r p :
  exists g, search_prefix resources (Some r) p = Some g.
Proof.
  unfold search_prefix. destruct (scan_snd_some p resources r) as [g ->].
  apply select_some.
Qed.

Lemma search_fold_some ps r :
  exists g, fold_left (search_prefix resources) ps (Some r) = Some g.
Proof.
  revert r; induction ps as [|q ps IH]; intros r; cbn [fold_left]; [eauto|].
  destruct (search_prefix_some r q) as [g ->]. apply IH.
Qed.

(** *** Length of the kept file *)

Lemma direct_matches_truthy p :
  truthy p = true ->
  forall x, In x (List.filter (direct_match p) resources) -> truthy x = true.
Proof.
  intros Hp x Hx. apply filter_In in Hx as [_ Hd].
  now apply (direct_match_truthy p).
Qed.

Lemma search_prefix_bound rf p g :
  truthy p = true -> In g resources -> eligible p g = true ->
  exists f, search_prefix resources rf p = Some f /\ truthy f = true
            /\ (String.length f <= String.length g)%nat.
Proof.
  intros Hp Hg He. apply andb_true_iff in He as [Hd Hm].
  apply negb_true_iff in Hm.
  unfold search_prefix. rewrite scan_resources_spec. cbn [fst snd].
  apply select_bound; [now apply direct_matches_truthy | | exact Hm].
  apply filter_In. now split.
Qed.

(** *** Rows without a substitution match *)

Lemma search_prefix_no_fallback rf p :
  (forall g, In g resources -> fallback_only p g = false) ->
  search_prefix resources rf p
  = fold_left keep_shorter (List.filter (direct_match p) resources) rf.
Proof.
  intros H. unfold search_prefix. rewrite (scan_no_fallback p resources rf H).
  now rewrite scan_resources_spec.
Qed.

Lemma search_fold_no_fallback ps rf :
  no_fallback ps resources ->
  fold_left (search_prefix resources) ps rf
  = fold_left keep_shorter
      (flat_map (fun p => List.filter (direct_match p) resources) ps) rf.
Proof.
  revert rf; induction ps as [|q ps IH]; intros rf H; cbn [fold_left flat_map];
    [reflexivity|].
  rewrite fold_left_app, search_prefix_no_fallback.
  - apply IH. intros p g Hp Hg. apply H; [now right | exact Hg].
  - intros g Hg. apply H; [now left | exact Hg].
Qed.

Lemma filter_flat_map (P : string -> bool) (F : string -> list string) ps :
  List.filter P (flat_map F ps) = flat_map (fun p => List.filter P (F p)) ps.
Proof.
  induction ps as [|q ps IH]; cbn [flat_map]; [reflexivity|].
  now rewrite List.filter_app, IH.
Qed.

Lemma filter_filter (P Q : string -> bool) rs :
  List.filter P (List.filter Q rs) = List.filter (fun x => Q x && P x) rs.
Proof.
  induction rs as [|x rs IH]; cbn [List.filter]; [reflexivity|].
  destruct (Q x); cbn [List.filter andb]; [|exact IH].
  destruct (P x); now rewrite IH.
Qed.

(** The direct matches the row may select, in the order the code meets
    them: candidate by candidate, each in listing order. *)
Lemma eligible_matches_spec ps :
  List.filter (fun f => negb (is_mov f))
    (flat_map (fun p => List.filter (direct_match p) resources) ps)
  = flat_map (fun p => List.filter (eligible p) resources) ps.
Proof.
  rewrite filter_flat_map. induction ps as [|q ps IH]; cbn [flat_map]; [reflexivity|].
  now rewrite IH, filter_filter.
Qed.

End Resolve.

(** * The file bound to a cell *)

Lemma first_shortest_spec l l1 f l2 :
  l = l1 ++ f :: l2 ->
  (forall x, In x l1 -> (String.length f < String.length x)%nat) ->
  (forall x, In x l2 -> (String.length f <= String.length x)%nat) ->
  first_shortest l = Some f.
Proof.
  intros -> H1 H2.
  assert (Hf : first_shortest (f :: l2) = Some f).
  { clear H1. cbn [first_shortest].
    destruct (first_shortest l2) as [g|] eqn:E; [|reflexivity].
    assert (Hg : (String.length f <= String.length g)%nat).
    { clear -E H2. revert g E H2. induction l2 as [|x l2 IH]; intros g E H2; [discriminate|].
      cbn [first_shortest] in E. destruct (first_shortest l2) as [h|] eqn:Eh.
      - destruct (String.length h <? String.length x)%nat; injection E as <-.
        + apply (IH h eq_refl). intros y Hy. apply H2. now right.
        + apply H2. now left.
      - injection E as <-. apply H2. now left. }
    apply Nat.ltb_ge in Hg. now rewrite Hg. }
  induction l1 as [|x l1 IH]; [exact Hf|].
  change ((x :: l1) ++ f :: l2) with (x :: (l1 ++ f :: l2)).
  cbn [first_shortest]. rewrite IH by (intros y Hy; apply H1; now right).
  assert (Hx : (String.length f < String.length x)%nat) by (apply H1; now left).
  apply Nat.ltb_lt in Hx. now rewrite Hx.
Qed.

Lemma eligible_matches_ok ps resources x :
  (forall p, In p ps -> truthy p = true) ->
  In x (eligible_matches ps resources) -> truthy x = true /\ is_mov x = false.
Proof.
  intros Hps Hx. apply in_flat_map in Hx as (p & Hp & Hx).
  apply filter_In in Hx as [_ He]. apply andb_true_iff in He as [Hd Hm].
  split; [apply (direct_match_truthy p); auto | now apply negb_true_iff].
Qed.

(** Without a substitution match, the cell is bound to the first of
    the shortest names it may select. *)
Lemma resolve_no_fallback tokens v resources :
  no_fallback (prefixes (resolve tokens v resources)) resources ->
  resource_file (resolve tokens v resources)
  = first_shortest (eligible_matches (prefixes (resolve tokens v resources)) resources).
Proof.
  intros H. rewrite resolve_file, resolve_prefixes in *.
  rewrite search_fold_no_fallback by exact H.
  rewrite select_skips_mov, eligible_matches_spec.
  apply select_first_shortest. intros x Hx.
  eapply eligible_matches_ok; [|exact Hx].
  intros p. apply candidate_prefixes_truthy.
Qed.

(** C5 (amended).  If a name of the listing begins, with exact case,
    with one of the candidate prefixes of the cell, does not end in
    .mov, and is the only name of the listing that matches any
    candidate prefix of the cell, directly or through a substitution
    (both tests ignore case), then the cell is bound to that name.  The
    search is a function of the tokens, the value and the listing, so
    the same inputs always give the same file; the hypotheses speak of
    membership in the listing only, so here its order does not matter
    either. *)
Theorem unique_match_is_resolved tokens v resources p f :
  In p (prefixes (resolve tokens v resources)) ->
  In f resources ->
  startswith f p = true ->
  is_mov f = false ->
  (forall q g, In q (prefixes (resolve tokens v resources)) -> In g resources ->
     direct_match q g = true \/ fallback_match q g = true -> g = f) ->
  resource_file (resolve tokens v resources) = Some f.
Proof.
  intros Hp Hf Hs Hm Huniq.
  rewrite resolve_prefixes in Hp, Huniq. rewrite resolve_file.
  set (ps := candidate_prefixes (choose_prefix_list tokens v) v) in *.
  assert (Hd : eligible p f = true).
  { unfold eligible, direct_match, startswith in *. now rewrite prefix_lower, Hm by exact Hs. }
  assert (Hsome : exists x, fold_left (search_prefix resources) ps None = Some x).
  { destruct (in_split _ _ Hp) as (ps1 & ps2 & E). rewrite E, fold_left_app.
    cbn [fold_left].
    destruct (search_prefix_bound resources
                (fold_left (search_prefix resources) ps1 None) p f)
      as (x & -> & _); [eapply candidate_prefixes_truthy; exact Hp | exact Hf | exact Hd |].
    apply search_fold_some. }
  destruct Hsome as [x Hx]. rewrite Hx. f_equal.
  destruct (search_fold_origin resources ps None) as [E|(g & q & E & Hq & Hg & Hmatch)];
    [congruence|].
  rewrite Hx in E. injection E as ->.
  apply (Huniq q g Hq Hg).
  destruct Hmatch as [He|Hfb].
  - left. now apply andb_true_iff in He as [? _].
  - right. now apply andb_true_iff in Hfb as [_ ?].
Qed.

Lemma unique_match_is_resolved_witness :
  resource_file
    (resolve ["Board Book"] "Three Little Kittens"
       ["Board Book.Three Little Kittens.pdf"; "Mini Book.Three Little Kittens.pdf"])
  = Some "Board Book.Three Little Kittens.pdf".
Proof.
  apply (unique_match_is_resolved _ _ _ "Board Book.Three Little Kittens.").
  - vm_compute. now left.
  - now left.
  - reflexivity.
  - reflexivity.
  - intros q g Hq Hg H. vm_compute in Hq.
    destruct Hq as [<-|[]]. destruct Hg as [<-|[<-|[]]]; [reflexivity|].
    vm_compute in H. destruct H; discriminate.
Defined.

(** C5 (counterexample).  The only name that begins with the candidate
    prefix ends in .mov: the cell is left without a file. *)
Lemma unique_mov_match_is_not_resolved :
  TOPIC_FILENAME_PREFIXES !! "Board Books" = Some ["Board Book"]
  /\ prefixes (resolve ["Board Book"] "Foo" ["Board Book.Foo.mov"]) = ["Board Book.Foo."]
  /\ startswith "Board Book.Foo.mov" "Board Book.Foo." = true
  /\ resource_file (resolve ["Board Book"] "Foo" ["Board Book.Foo.mov"]) = None
  /\ resource_file (resolve ["Board Book"] "Foo" ["Board Book.Foo.mov"])
     <> Some "Board Book.Foo.mov".
Proof. repeat split; try reflexivity. discriminate. Qed.

(** Two more ways the exact match loses: a shorter name that matches
    only when case is ignored, and a shorter name that matches only
    after the comma is removed from the prefix. *)
Example exact_match_loses_to_shorter_names :
  resource_file
    (resolve ["Board Book"] "Foo" ["Board Book.Foo.Extra.pdf"; "board book.foo.pdf"])
  = Some "board book.foo.pdf"
  /\ resource_file
       (resolve ["Board Book"] "A, B" ["Board Book.A, B.long.pdf"; "Board Book.A B.pdf"])
     = Some "Board Book.A B.pdf".
Proof. split; reflexivity. Qed.

(** C6 (amended).  In the loop over the direct matches the kept file is
    replaced only by a strictly shorter name; the substitution branch
    assigns the name it matched whatever the lengths.  Hence, for a
    cell none of whose candidates is matched through a substitution
    only, the file bound to the cell is no longer than any direct match
    that is not a .mov file. *)
Theorem kept_file_replaced_by_shorter :
  (forall r f, truthy r = true ->
     keep_shorter (Some r) f = Some r
     \/ (keep_shorter (Some r) f = Some f
         /\ (String.length f < String.length r)%nat))
  /\ (forall p acc r, fallback_only p r = true -> snd (scan_step p acc r) = Some r)
  /\ (forall tokens v resources p g,
        no_fallback (prefixes (resolve tokens v resources)) resources ->
        In p (prefixes (resolve tokens v resources)) ->
        In g resources -> eligible p g = true ->
        exists f, resource_file (resolve tokens v resources) = Some f
                  /\ (String.length f <= String.length g)%nat).
Proof.
  split; [|split].
  - intros r f Hr. destruct (keep_shorter_cases (Some r) f) as [->|(-> & _ & Hi)]; [now left|].
    right. split; [reflexivity|]. cbn [improves] in Hi. rewrite Hr in Hi.
    now apply Nat.ltb_lt in Hi.
  - intros p [found_files rf] r H. rewrite scan_step_spec. cbn [snd]. now rewrite H.
  - intros tokens v resources p g Hno Hp Hg He.
    rewrite resolve_prefixes in Hno, Hp. rewrite resolve_file.
    rewrite search_fold_no_fallback by exact Hno.
    destruct (select_bound
                (flat_map (fun p => List.filter (direct_match p) resources)
                   (candidate_prefixes (choose_prefix_list tokens v) v))
                None g) as (f & E & _ & L).
    + intros x Hx. apply in_flat_map in Hx as (q & Hq & Hx).
      apply (direct_matches_truthy resources q); [|exact Hx].
      eapply candidate_prefixes_truthy; exact Hq.
    + apply in_flat_map. exists p. split; [exact Hp|].
      apply filter_In. split; [exact Hg|]. now apply andb_true_iff in He as [? _].
    + apply andb_true_iff in He as [_ Hm]. now apply negb_true_iff.
    + now exists f.
Qed.

Lemma kept_file_replaced_by_shorter_witness :
  exists f,
    resource_file
      (resolve ["Board Book"] "Three Little Kittens"
         ["Board Book.Three Little Kittens.Extra.pdf";
          "Board Book.Three Little Kittens.pdf"]) = Some f
    /\ (String.length f <= String.length "Board Book.Three Little Kittens.pdf")%nat.
Proof.
  apply (proj2 (proj2 kept_file_replaced_by_shorter)
           _ _ _ "Board Book.Three Little Kittens.").
  - intros p g Hp Hg. vm_compute in Hp. destruct Hp as [<-|[]].
    destruct Hg as [<-|[<-|[]]]; reflexivity.
  - vm_compute. now left.
  - right. now left.
  - reflexivity.
Defined.

(** C6 (counterexample).  Both names match only once the comma is
    removed from the prefix.  The first pass assigns the short one, the
    next assigns the long one over it, and the cell is bound to the
    longer name. *)
Lemma fallback_replaces_by_longer :
  scan_resources "Board Book.A, B." ["Board Book.A B.pdf"] None
  = ([], Some "Board Book.A B.pdf")
  /\ scan_resources "Board Book.A, B."
       ["Board Book.A B.pdf"; "Board Book.A B.longer.pdf"] None
     = ([], Some "Board Book.A B.longer.pdf")
  /\ resource_file
       (resolve ["Board Book"] "A, B"
          ["Board Book.A B.pdf"; "Board Book.A B.longer.pdf"])
     = Some "Board Book.A B.longer.pdf"
  /\ (String.length "Board Book.A B.pdf"
      < String.length "Board Book.A B.longer.pdf")%nat.
Proof. repeat split; try reflexivity. vm_compute. lia. Qed.

(** C7 (amended).  For one candidate prefix, the loop over the direct
    matches (the names that begin with the prefix, case ignored) never
    newly selects a name ending in .mov, and it replaces the file kept
    so far only by a direct match with strictly fewer characters.  The
    file kept so far may come from an earlier candidate prefix of the
    cell, or from the scan of the listing for this prefix, which
    assigns the names matched through a substitution before the loop
    runs.  So the file kept after the loop is never longer than any
    direct match that is not a .mov file; and when no name of the
    listing matches the prefix through a substitution only, the loop
    ends with the first of the shortest among the file kept before, if
    any, and the direct matches that are not .mov files, taken in the
    order of the listing: started without a file, it selects a direct
    match that is not a .mov file and has the fewest characters, or
    nothing when there is none.  With the two Board Book files of the
    scenario in the listing, in either order, the title
    "Three Little Kittens" is bound to the shorter one. *)
Theorem shortest_direct_match_selected :
  (forall prefix v resources rf f,
     search_prefix resources rf (format_prefix prefix v) = Some f ->
     direct_match (format_prefix prefix v) f = true ->
     endswith (lower f) ".mov" = true ->
     rf = Some f)
  /\ (forall prefix v resources rf g,
        In g resources ->
        direct_match (format_prefix prefix v) g = true ->
        endswith (lower g) ".mov" = false ->
        exists f, search_prefix resources rf (format_prefix prefix v) = Some f
                  /\ (String.length f <= String.length g)%nat)
  /\ (forall prefix v resources,
        (forall g, In g resources -> fallback_only (format_prefix prefix v) g = false) ->
        search_prefix resources None (format_prefix prefix v)
        = first_shortest
            (List.filter
               (fun g => direct_match (format_prefix prefix v) g
                         && negb (endswith (lower g) ".mov"))
               resources)
        /\ forall f,
             search_prefix resources None (format_prefix prefix v) = Some f ->
             In f resources
             /\ direct_match (format_prefix prefix v) f = true
             /\ endswith (lower f) ".mov" = false
             /\ forall g, In g resources ->
                          direct_match (format_prefix prefix v) g = true ->
                          endswith (lower g) ".mov" = false ->
                          (String.length f <= String.length g)%nat)
  /\ (forall prefix v resources r,
        truthy r = true ->
        (forall g, In g resources -> fallback_only (format_prefix prefix v) g = false) ->
        search_prefix resources (Some r) (format_prefix prefix v)
        = first_shortest
            (r :: List.filter
                    (fun g => direct_match (format_prefix prefix v) g
                              && negb (endswith (lower g) ".mov"))
                    resources))
  /\ (forall resources,
        resources = ["Board Book.Three Little Kittens.pdf";
                     "Board Book.Three Little Kittens.Extra.pdf"]
        \/ resources = ["Board Book.Three Little Kittens.Extra.pdf";
                        "Board Book.Three Little Kittens.pdf"] ->
        process_cell resources "Board Books" (Some "Three Little Kittens") fresh
        = (Returned tt,
           {| content_by_type :=
                {[ "Board Books" :=
                     [ {| title := "Three Little Kittens";
                          file := "Board Book.Three Little Kittens.pdf" |} ] ]};
              stdout :=
                [ Adding_content
                    {| title := "Three Little Kittens";
                       file := "Board Book.Three Little Kittens.pdf" |} ] |})).
Proof.
  assert (Hbound : forall prefix v resources rf g,
            In g resources ->
            direct_match (format_prefix prefix v) g = true ->
            endswith (lower g) ".mov" = false ->
            exists f, search_prefix resources rf (format_prefix prefix v) = Some f
                      /\ (String.length f <= String.length g)%nat).
  { intros prefix v resources rf g Hg Hd Hm.
    destruct (search_prefix_bound resources rf _ g (format_prefix_truthy prefix v) Hg)
      as (f & E & _ & L); [|now exists f].
    unfold eligible, is_mov. now rewrite Hd, Hm. }
  repeat apply conj.
  - intros prefix v resources rf f E Hd Hm.
    destruct (search_prefix_origin resources rf (format_prefix prefix v))
      as [E'|(g & E' & _ & [He|Hfb])]; [congruence | |];
      rewrite E in E'; injection E' as <-.
    + apply andb_true_iff in He as [_ He]. unfold is_mov in He.
      rewrite Hm in He. discriminate.
    + apply andb_true_iff in Hfb as [Hfb _]. rewrite Hd in Hfb. discriminate.
  - exact Hbound.
  - intros prefix v resources Hno. split.
    + rewrite search_prefix_no_fallback by exact Hno.
      rewrite select_skips_mov, filter_filter.
      apply select_first_shortest. intros x Hx.
      apply filter_In in Hx as [_ He]. apply andb_true_iff in He as [Hd Hm].
      split; [|now apply negb_true_iff].
      apply (direct_match_truthy (format_prefix prefix v));
        [apply format_prefix_truthy | exact Hd].
    + intros f E.
      destruct (search_prefix_origin resources None (format_prefix prefix v))
        as [E'|(g & E' & Hin & [He|Hfb])]; [congruence | |];
        rewrite E in E'; injection E' as <-.
      * apply andb_true_iff in He as [Hd Hm]. apply negb_true_iff in Hm.
        repeat split; [exact Hin | exact Hd | exact Hm|].
        intros g Hg Hdg Hmg.
        destruct (Hbound prefix v resources None g Hg Hdg Hmg) as (f' & E' & L).
        congruence.
      * rewrite (Hno f Hin) in Hfb. discriminate.
  - intros prefix v resources r Tr Hno.
    rewrite search_prefix_no_fallback by exact Hno.
    rewrite select_skips_mov, filter_filter.
    apply select_first_shortest_from; [|exact Tr]. intros x Hx.
    apply filter_In in Hx as [_ He]. apply andb_true_iff in He as [Hd Hm].
    split; [|now apply negb_true_iff].
    apply (direct_match_truthy (format_prefix prefix v));
      [apply format_prefix_truthy | exact Hd].
  - intros resources [->| ->]; reflexivity.
Qed.

Lemma shortest_direct_match_selected_witness :
  search_prefix
    ["Board Book.Three Little Kittens.Extra.pdf";
     "Board Book.Three Little Kittens.mov";
     "Board Book.Three Little Kittens.pdf.bak";
     "Board Book.Three Little Kitten.pdf"]
    None (format_prefix "Board Book" "Three Little Kittens")
  = Some "Board Book.Three Little Kittens.pdf.bak".
Proof.
  eapply eq_trans.
  - apply (proj1 (proj2 (proj2 shortest_direct_match_selected))).
    intros g Hg.
    repeat (destruct Hg as [<-|Hg]; [reflexivity|]). destruct Hg.
  - reflexivity.
Defined.

(** C7 (counterexample).  The only direct match of the candidate prefix
    is a .pdf file, so it is the shortest of the direct matches that
    are not .mov files.  It is not selected: the scan has assigned the
    .mov name, which matches once the comma is removed from the prefix,
    and the loop keeps it because the direct match is longer. *)
Lemma direct_match_loses_to_kept_file :
  prefixes (resolve ["Board Book"] "A, B"
              ["Board Book.A B.mov"; "Board Book.A, B.longer.pdf"])
  = ["Board Book.A, B."]
  /\ List.filter (direct_match "Board Book.A, B.")
       ["Board Book.A B.mov"; "Board Book.A, B.longer.pdf"]
     = ["Board Book.A, B.longer.pdf"]
  /\ endswith (lower "Board Book.A, B.longer.pdf") ".mov" = false
  /\ scan_resources "Board Book.A, B."
       ["Board Book.A B.mov"; "Board Book.A, B.longer.pdf"] None
     = (["Board Book.A, B.longer.pdf"], Some "Board Book.A B.mov")
  /\ resource_file
       (resolve ["Board Book"] "A, B"
          ["Board Book.A B.mov"; "Board Book.A, B.longer.pdf"])
     = Some "Board Book.A B.mov"
  /\ resource_file
       (resolve ["Board Book"] "A, B"
          ["Board Book.A B.mov"; "Board Book.A, B.longer.pdf"])
     <> Some "Board Book.A, B.longer.pdf".
Proof. repeat split; try reflexivity. discriminate. Qed.

(** The same across two candidate prefixes: the only direct match of
    the second one is not selected, because the file kept from the
    first is shorter. *)
Example direct_match_of_later_token_not_selected :
  prefixes (resolve ["SH.ANIM"; "SH.LIVE"] "Foo" ["SH.LIVE.Foo.HD.mp4"; "SH.ANIM.Foo.mp4"])
  = ["SH.ANIM.Foo."; "SH.LIVE.Foo."]
  /\ List.filter (direct_match "SH.LIVE.Foo.") ["SH.LIVE.Foo.HD.mp4"; "SH.ANIM.Foo.mp4"]
     = ["SH.LIVE.Foo.HD.mp4"]
  /\ search_prefix ["SH.LIVE.Foo.HD.mp4"; "SH.ANIM.Foo.mp4"]
       (Some "SH.ANIM.Foo.mp4") "SH.LIVE.Foo."
     = Some "SH.ANIM.Foo.mp4"
  /\ resource_file
       (resolve ["SH.ANIM"; "SH.LIVE"] "Foo" ["SH.LIVE.Foo.HD.mp4"; "SH.ANIM.Foo.mp4"])
     = Some "SH.ANIM.Foo.mp4".
Proof. repeat split; reflexivity. Qed.

(** A .mov file is passed over although it is the shortest direct
    match of the listing. *)
Example mov_skipped_although_shortest :
  search_prefix
    ["Board Book.Three Little Kittens.Extra.pdf";
     "Board Book.Three Little Kittens.mov";
     "Board Book.Three Little Kittens.pdf.bak"]
    None "Board Book.Three Little Kittens."
  = Some "Board Book.Three Little Kittens.pdf.bak".
Proof. reflexivity. Qed.

(** C9.  The loop over the direct matches never puts a .mov name in
    place: a .mov file it ends with was there before it started.  The
    substitution branch assigns the name it matched without looking at
    the extension.  So a cell bound to a .mov file got it from a
    candidate prefix that the name matches through a substitution only. *)
Theorem mov_only_through_fallback :
  (forall found_files rf f,
     fold_left keep_shorter found_files rf = Some f -> is_mov f = true ->
     rf = Some f)
  /\ (forall p acc r, fallback_only p r = true -> snd (scan_step p acc r) = Some r)
  /\ (forall tokens v resources f,
        resource_file (resolve tokens v resources) = Some f -> is_mov f = true ->
        In f resources
        /\ exists p, In p (prefixes (resolve tokens v resources))
                     /\ direct_match p f = false /\ fallback_match p f = true).
Proof.
  repeat apply conj.
  - intros found_files rf f E Hm.
    destruct (select_origin found_files rf) as [<-|(g & Eg & _ & Hg)]; [exact E|].
    congruence.
  - intros p [found_files rf] r H. rewrite scan_step_spec. cbn [snd]. now rewrite H.
  - intros tokens v resources f E Hm.
    rewrite resolve_prefixes. rewrite resolve_file in E.
    destruct (search_fold_origin resources
                (candidate_prefixes (choose_prefix_list tokens v) v) None)
      as [E'|(g & p & E' & Hp & Hg & [He|Hfb])]; [congruence| |].
    + rewrite E in E'. injection E' as <-.
      apply andb_true_iff in He as [_ He]. rewrite Hm in He. discriminate.
    + rewrite E in E'. injection E' as <-. split; [exact Hg|].
      exists p. apply andb_true_iff in Hfb as [Hd Hfb].
      apply negb_true_iff in Hd. now repeat split.
Qed.

Lemma mov_only_through_fallback_witness :
  In "Board Book.A B.mov" ["Board Book.A B.mov"; "Board Book.A, B.longer.pdf"]
  /\ exists p,
       In p (prefixes (resolve ["Board Book"] "A, B"
                         ["Board Book.A B.mov"; "Board Book.A, B.longer.pdf"]))
       /\ direct_match p "Board Book.A B.mov" = false
       /\ fallback_match p "Board Book.A B.mov" = true.
Proof.
  apply (proj2 (proj2 mov_only_through_fallback)); reflexivity.
Defined.

(** C10 (amended).  Replacing the kept file needs a strictly shorter
    name, so among direct matches of the same least length the one the
    code meets first is kept.  The code meets them candidate prefix by
    candidate prefix, in the order of the tokens, and for one candidate
    prefix in the order of the listing.  For a cell none of whose
    candidates is matched through a substitution only, the file is the
    first of the shortest names in that order; with one candidate
    prefix this is the order of the listing, and swapping two names of
    the same length in the listing changes the file. *)
Theorem tie_kept_in_encounter_order :
  (forall tokens v resources l1 f l2,
     no_fallback (prefixes (resolve tokens v resources)) resources ->
     eligible_matches (prefixes (resolve tokens v resources)) resources
     = l1 ++ f :: l2 ->
     (forall x, In x l1 -> (String.length f < String.length x)%nat) ->
     (forall x, In x l2 -> (String.length f <= String.length x)%nat) ->
     resource_file (resolve tokens v resources) = Some f)
  /\ (forall r f, truthy r = true ->
        String.length f = String.length r -> keep_shorter (Some r) f = Some r)
  /\ resource_file
       (resolve ["Board Book"] "Foo" ["Board Book.Foo.1.pdf"; "Board Book.Foo.2.pdf"])
     = Some "Board Book.Foo.1.pdf"
  /\ resource_file
       (resolve ["Board Book"] "Foo" ["Board Book.Foo.2.pdf"; "Board Book.Foo.1.pdf"])
     = Some "Board Book.Foo.2.pdf".
Proof.
  repeat apply conj; try reflexivity.
  - intros tokens v resources l1 f l2 Hno E H1 H2.
    rewrite resolve_no_fallback by exact Hno.
    now apply (first_shortest_spec _ l1 f l2).
  - intros r f Hr E. unfold keep_shorter. cbn [improves]. rewrite Hr, E.
    now rewrite Nat.ltb_irrefl.
Qed.

Lemma tie_kept_in_encounter_order_witness :
  resource_file
    (resolve ["SH.ANIM"; "SH.LIVE"] "Foo"
       ["SH.LIVE.Foo.mp4"; "SH.ANIM.Foo.Extra.mp4"; "SH.ANIM.Foo.mp4"])
  = Some "SH.ANIM.Foo.mp4".
Proof.
  apply (proj1 tie_kept_in_encounter_order _ _ _
           ["SH.ANIM.Foo.Extra.mp4"] _ ["SH.LIVE.Foo.mp4"]).
  - intros p g Hp Hg. vm_compute in Hp.
    destruct Hp as [<-|[<-|[]]]; destruct Hg as [<-|[<-|[<-|[]]]]; reflexivity.
  - reflexivity.
  - intros x [<-|[]]. vm_compute. lia.
  - intros x [<-|[]]. vm_compute. lia.
Defined.

(** C10 (counterexample).  Both names are direct matches of the cell,
    neither is a .mov file and they have the same length.  The one
    that comes later in the listing is kept, because its token comes
    first in the list of the category. *)
Lemma tie_kept_by_token_order :
  TOPIC_FILENAME_PREFIXES !! "SH Videos" = Some ["SH.ANIM"; "SH.LIVE"]
  /\ prefixes (resolve ["SH.ANIM"; "SH.LIVE"] "Foo" ["SH.LIVE.Foo.mp4"; "SH.ANIM.Foo.mp4"])
     = ["SH.ANIM.Foo."; "SH.LIVE.Foo."]
  /\ eligible "SH.LIVE.Foo." "SH.LIVE.Foo.mp4" = true
  /\ eligible "SH.ANIM.Foo." "SH.ANIM.Foo.mp4" = true
  /\ String.length "SH.LIVE.Foo.mp4" = String.length "SH.ANIM.Foo.mp4"
  /\ resource_file
       (resolve ["SH.ANIM"; "SH.LIVE"] "Foo" ["SH.LIVE.Foo.mp4"; "SH.ANIM.Foo.mp4"])
     = Some "SH.ANIM.Foo.mp4".
Proof. repeat split; reflexivity. Qed.

(** * The pass over the sheet (lines 117-183) *)

Section Pass.

Implicit Types s : chef.
Implicit Types rc : nat * nat.

Lemma for_each_cons {A : Type} (x : A) (xs : list A) (body : A -> stmt unit) s :
  for_each (x :: xs) body s
  = match body x s with
    | (Returned _, s') => for_each xs body s'
    | (Raised e, s') => (Raised e, s')
    end.
Proof. reflexivity. Qed.

Lemma for_each_app {A : Type} (xs ys : list A) (body : A -> stmt unit) s :
  for_each (xs ++ ys) body s
  = match for_each xs body s with
    | (Returned _, s') => for_each ys body s'
    | (Raised e, s') => (Raised e, s')
    end.
Proof.
  revert s; induction xs as [|x xs IH]; intros s; [reflexivity|].
  change ((x :: xs) ++ ys) with (x :: (xs ++ ys)). rewrite !for_each_cons.
  destruct (body x s) as [[[]|e] s']; [apply IH | reflexivity].
Qed.

(** Two nested loops visit the pairs in row-major order. *)
Lemma for_each_nested {A B : Type} (xs : list A) (ys : list B)
    (body : A -> B -> stmt unit) s :
  for_each xs (fun x => for_each ys (body x)) s
  = for_each (flat_map (fun x => map (pair x) ys) xs)
      (fun xy => body (fst xy) (snd xy)) s.
Proof.
  revert s; induction xs as [|x xs IH]; intros s; [reflexivity|].
  cbn [flat_map]. rewrite for_each_app, for_each_cons.
  assert (E : forall s0, for_each (map (pair x) ys) (fun xy => body (fst xy) (snd xy)) s0
                         = for_each ys (body x) s0).
  { clear. induction ys as [|y ys IH]; intros s0; [reflexivity|].
    cbn [map]. rewrite !for_each_cons. cbn [fst snd].
    destruct (body x y s0) as [[[]|e] s']; [apply IH | reflexivity]. }
  rewrite E. destruct (for_each ys (body x) s) as [[[]|e] s']; [apply IH | reflexivity].
Qed.

Lemma load_run_cells sheet resources s :
  load_content_from_spreadsheet sheet resources s
  = run_cells sheet resources (cells sheet) s.
Proof.
  unfold load_content_from_spreadsheet, run_cells, cells.
  now rewrite for_each_nested.
Qed.

Lemma in_cells sheet r c :
  In (r, c) (cells sheet)
  <-> (2 <= r <= max_row sheet)%nat /\ (1 <= c <= max_column sheet)%nat.
Proof.
  unfold cells. rewrite in_flat_map. split.
  - intros (r' & Hr & Hc). apply in_map_iff in Hc as (c' & E & Hc).
    injection E as -> ->. apply in_seq in Hr, Hc. lia.
  - intros [Hr Hc]. exists r. split; [apply in_seq; lia|].
    apply in_map_iff. exists c. split; [reflexivity | apply in_seq; lia].
Qed.

Lemma lookup_map_seq {A : Type} (f : nat -> A) start n i :
  (i < n)%nat -> map f (seq start n) !! i = Some (f (start + i)%nat).
Proof.
  revert start i; induction n as [|n IH]; intros start i Hi; [lia|].
  destruct i as [|i]; cbn [seq map].
  - now rewrite Nat.add_0_r.
  - change ((f start :: map f (seq (S start) n)) !! S i)
      with (map f (seq (S start) n) !! i).
    rewrite IH by lia. f_equal. f_equal. lia.
Qed.

(** The index [c-1] is always within [self.col_names]. *)
Lemma read_col_names_lookup sheet c :
  (1 <= c <= max_column sheet)%nat ->
  read_col_names sheet !! (c - 1)%nat = Some (col_name sheet c).
Proof.
  intros Hc. unfold read_col_names. rewrite lookup_map_seq by lia.
  unfold col_name. now replace (1 + (c - 1))%nat with c by lia.
Qed.

Lemma visit_spec sheet resources r c :
  In (r, c) (cells sheet) ->
  visit sheet resources (read_col_names sheet) r c
  = if truthy (col_name sheet c)
    then process_cell resources (cell_type sheet c) (cell sheet r c)
    else ret tt.
Proof.
  intros H. apply in_cells in H as [_ Hc].
  unfold visit. now rewrite read_col_names_lookup.
Qed.

Lemma process_cell_effect resources type cell_value s :
  cell_effect resources type cell_value s (process_cell resources type cell_value s).
Proof.
  unfold process_cell. destruct cell_value as [v|]; [|now constructor].
  destruct (truthy v) eqn:Tv; [|now constructor].
  destruct (TOPIC_FILENAME_PREFIXES !! type) as [tokens|] eqn:Et;
    [|now apply (effect_key_error _ _ _ _ v)].
  destruct (found (resource_file (resolve tokens (strip v) resources))) as [f|] eqn:Ef.
  - cbv [bind print append_content]. cbn [content_by_type stdout].
    now apply (effect_adding _ _ _ _ v tokens f).
  - cbv [print]. now apply (effect_unable _ _ _ _ v tokens).
Qed.

Lemma visit_unconfigured sheet resources rc s :
  In rc (cells sheet) -> unconfigured sheet rc = true ->
  visit sheet resources (read_col_names sheet) (fst rc) (snd rc) s
  = (Raised (KeyError (cell_type sheet (snd rc))), s).
Proof.
  destruct rc as [r c]. cbn [fst snd]. intros Hin H. rewrite visit_spec by exact Hin.
  unfold unconfigured in H. cbn [fst snd] in H.
  apply andb_true_iff in H as [H Ht]. apply andb_true_iff in H as [Hn Hv].
  rewrite Hn. unfold process_cell.
  destruct (cell sheet r c) as [v|]; [|discriminate]. rewrite Hv.
  now destruct (TOPIC_FILENAME_PREFIXES !! cell_type sheet c).
Qed.

Lemma visit_configured sheet resources rc s :
  In rc (cells sheet) -> unconfigured sheet rc = false ->
  fst (visit sheet resources (read_col_names sheet) (fst rc) (snd rc) s) = Returned tt.
Proof.
  destruct rc as [r c]. cbn [fst snd]. intros Hin H. rewrite visit_spec by exact Hin.
  unfold unconfigured in H. cbn [fst snd] in H.
  destruct (truthy (col_name sheet c)); [|reflexivity].
  destruct (process_cell_effect resources (cell_type sheet c) (cell sheet r c) s)
    as [ |v Ev Tv Et| | ]; try reflexivity.
  rewrite Ev, Tv, Et in H. discriminate.
Qed.

Lemma for_each_returns {A : Type} (xs : list A) (body : A -> stmt unit) s :
  (forall x s', In x xs -> fst (body x s') = Returned tt) ->
  fst (for_each xs body s) = Returned tt.
Proof.
  revert s; induction xs as [|x xs IH]; intros s H; [reflexivity|].
  rewrite for_each_cons. pose proof (H x s (or_introl eq_refl)) as Hx.
  destruct (body x s) as [[[]|e] s']; [|discriminate].
  apply IH. intros y s0 Hy. apply H. now right.
Qed.

(** A property of the chef that every visit keeps holds when the loop
    stops, whether it returns or raises. *)
Lemma for_each_invariant {A : Type} (I : chef -> Prop) (xs : list A)
    (body : A -> stmt unit) s :
  (forall x s', In x xs -> I s' -> I (snd (body x s'))) ->
  I s -> I (snd (for_each xs body s)).
Proof.
  revert s; induction xs as [|x xs IH]; intros s H Hs; [exact Hs|].
  rewrite for_each_cons. pose proof (H x s (or_introl eq_refl) Hs) as Hx.
  destruct (body x s) as [[[]|e] s']; [|exact Hx].
  apply IH; [|exact Hx]. intros y s0 Hy. apply H. now right.
Qed.

(** Two loops over the same list whose bodies agree up to a relation
    on the chef end alike. *)
Lemma for_each_related {A : Type} (R : chef -> chef -> Prop) (xs : list A)
    (body1 body2 : A -> stmt unit) s1 s2 :
  (forall x t1 t2, In x xs -> R t1 t2 ->
     fst (body1 x t1) = fst (body2 x t2)
     /\ R (snd (body1 x t1)) (snd (body2 x t2))) ->
  R s1 s2 ->
  fst (for_each xs body1 s1) = fst (for_each xs body2 s2)
  /\ R (snd (for_each xs body1 s1)) (snd (for_each xs body2 s2)).
Proof.
  revert s1 s2; induction xs as [|x xs IH]; intros s1 s2 H Hs; [now split|].
  rewrite !for_each_cons. destruct (H x s1 s2 (or_introl eq_refl) Hs) as [Ho Hr].
  destruct (body1 x s1) as [o1 t1], (body2 x s2) as [o2 t2]. cbn [fst snd] in Ho, Hr.
  subst o2. destruct o1 as [[]|e]; [|now split].
  apply IH; [|exact Hr]. intros y u1 u2 Hy. apply H. now right.
Qed.

(** The outcome of a cell and the entries it adds do not depend on
    what was printed before. *)
Lemma process_cell_same_content resources type cell_value s1 s2 :
  content_by_type s1 = content_by_type s2 ->
  fst (process_cell resources type cell_value s1)
  = fst (process_cell resources type cell_value s2)
  /\ content_by_type (snd (process_cell resources type cell_value s1))
     = content_by_type (snd (process_cell resources type cell_value s2)).
Proof.
  intros E. unfold process_cell.
  destruct cell_value as [v|]; [|now split].
  destruct (truthy v); [|now split].
  destruct (TOPIC_FILENAME_PREFIXES !! type) as [tokens|]; [|now split].
  destruct (found (resource_file (resolve tokens (strip v) resources))) as [f|].
  - cbv [bind print append_content]. cbn [fst snd content_by_type]. now rewrite E.
  - cbv [print]. now split.
Qed.

(** Lines are only ever added to what was printed. *)
Lemma process_cell_stdout resources type cell_value s :
  exists more,
    stdout (snd (process_cell resources type cell_value s)) = stdout s ++ more.
Proof.
  destruct (process_cell_effect resources type cell_value s); cbn [snd stdout];
    try (exists []; now rewrite app_nil_r); eauto.
Qed.

Lemma run_cells_stdout sheet resources cs s :
  (forall rc, In rc cs -> In rc (cells sheet)) ->
  exists more, stdout (snd (run_cells sheet resources cs s)) = stdout s ++ more.
Proof.
  intros Hcs. unfold run_cells.
  apply (for_each_invariant (fun s' => exists more, stdout s' = stdout s ++ more)).
  - intros [r c] s' Hin [more E]. cbn [fst snd].
    rewrite visit_spec by (now apply Hcs).
    destruct (truthy (col_name sheet c)); [|now exists more].
    destruct (process_cell_stdout resources (cell_type sheet c) (cell sheet r c) s')
      as [more' E'].
    exists (more ++ more'). now rewrite E', E, app_assoc.
  - exists []. now rewrite app_nil_r.
Qed.

(** No name matches any candidate: the search ends without a file. *)
Lemma no_match_unresolved tokens v resources :
  (forall p g, In p (prefixes (resolve tokens v resources)) -> In g resources ->
     direct_match p g = false /\ fallback_match p g = false) ->
  resource_file (resolve tokens v resources) = None.
Proof.
  intros H. rewrite resolve_prefixes in H. rewrite resolve_file.
  destruct (search_fold_origin resources
              (candidate_prefixes (choose_prefix_list tokens v) v) None)
    as [E|(f & p & _ & Hp & Hf & Hm)]; [exact E|].
  destruct (H p f Hp Hf) as [Hd Hb]. exfalso.
  destruct Hm as [He|Hfb].
  - apply andb_true_iff in He as [He _]. congruence.
  - apply andb_true_iff in Hfb as [_ Hfb]. congruence.
Qed.

(** Emptying a cell of a row below the header changes neither the
    column names nor the list of cells nor any other cell. *)
Lemma blank_col_names sheet r c :
  (2 <= r)%nat -> read_col_names (blank sheet r c) = read_col_names sheet.
Proof.
  intros Hr. unfold read_col_names, blank. cbn [cell max_column].
  apply map_ext. intros c'. destruct (1 =? r)%nat eqn:E; [|reflexivity].
  apply Nat.eqb_eq in E. lia.
Qed.

Lemma blank_cell_other sheet r c r' c' :
  (r', c') <> (r, c) -> cell (blank sheet r c) r' c' = cell sheet r' c'.
Proof.
  intros H. cbn [blank cell].
  destruct (r' =? r)%nat eqn:Er; [|reflexivity].
  destruct (c' =? c)%nat eqn:Ec; [|reflexivity].
  apply Nat.eqb_eq in Er, Ec. congruence.
Qed.

Lemma blank_cell_same sheet r c : cell (blank sheet r c) r c = None.
Proof. cbn [blank cell]. now rewrite !Nat.eqb_refl. Qed.

End Pass.

(** * What the pass leaves in [self.content_by_type] and prints *)

(** C2 (amended).  Every entry of the output mapping comes from a
    non-empty cell below the header of its category, and its title is
    the value of that cell with the surrounding whitespace stripped:
    the variant markers stay in the title.  They are removed only from
    the copy that is put into the candidate prefixes.  The file of the
    entry is the one the search found for the stripped value. *)
Theorem entry_title_is_stripped_cell_value sheet resources type l e :
  content_by_type (snd (load_content_from_spreadsheet sheet resources fresh)) !! type
  = Some l ->
  In e l ->
  exists r c v tokens,
    In (r, c) (cells sheet)
    /\ type = cell_type sheet c
    /\ cell sheet r c = Some v
    /\ TOPIC_FILENAME_PREFIXES !! type = Some tokens
    /\ title e = strip v
    /\ found (resource_file (resolve tokens (strip v) resources)) = Some (file e).
Proof.
  rewrite load_run_cells. unfold run_cells. revert type l e.
  apply (for_each_invariant
           (fun s => forall type l e,
              content_by_type s !! type = Some l -> In e l ->
              exists r c v tokens,
                In (r, c) (cells sheet)
                /\ type = cell_type sheet c
                /\ cell sheet r c = Some v
                /\ TOPIC_FILENAME_PREFIXES !! type = Some tokens
                /\ title e = strip v
                /\ found (resource_file (resolve tokens (strip v) resources))
                   = Some (file e))).
  - intros [r c] s Hin IH type l e. cbn [fst snd].
    rewrite visit_spec by exact Hin.
    destruct (truthy (col_name sheet c)); [|apply IH].
    destruct (process_cell_effect resources (cell_type sheet c) (cell sheet r c) s)
      as [ | | |v tokens f Ev Tv Et Ef]; cbn [snd content_by_type]; try apply IH.
    destruct (decide (cell_type sheet c = type)) as [<-|Hne].
    + rewrite lookup_insert_eq. intros [= <-] He.
      apply in_app_or in He as [He|[<-|[]]].
      * destruct (content_by_type s !! cell_type sheet c) as [old|] eqn:Eo; [|destruct He].
        now apply (IH _ old).
      * exists r, c, v, tokens. now repeat split.
    + rewrite lookup_insert_ne by exact Hne. apply IH.
  - intros type l e H. cbv [fresh content_by_type] in H.
    rewrite lookup_empty in H. discriminate.
Qed.

Lemma entry_title_is_stripped_cell_value_witness :
  exists r c v tokens,
    In (r, c)
      (cells (sheet_of_rows [ [Some "MGC ABC/Counting Videos"];
                              [Some " Numbers Song (3D Anim) "] ]))
    /\ "MGC ABC/Counting Videos"
       = cell_type (sheet_of_rows [ [Some "MGC ABC/Counting Videos"];
                                    [Some " Numbers Song (3D Anim) "] ]) c
    /\ cell (sheet_of_rows [ [Some "MGC ABC/Counting Videos"];
                             [Some " Numbers Song (3D Anim) "] ]) r c = Some v
    /\ TOPIC_FILENAME_PREFIXES !! "MGC ABC/Counting Videos" = Some tokens
    /\ "Numbers Song (3D Anim)" = strip v
    /\ found (resource_file
                (resolve tokens (strip v) ["MGCB.3D.ANIM.Numbers Song.mp4"]))
       = Some "MGCB.3D.ANIM.Numbers Song.mp4".
Proof.
  apply (entry_title_is_stripped_cell_value
           (sheet_of_rows [ [Some "MGC ABC/Counting Videos"];
                            [Some " Numbers Song (3D Anim) "] ])
           ["MGCB.3D.ANIM.Numbers Song.mp4"]
           "MGC ABC/Counting Videos"
           [ {| title := "Numbers Song (3D Anim)";
                file := "MGCB.3D.ANIM.Numbers Song.mp4" |} ]
           {| title := "Numbers Song (3D Anim)";
              file := "MGCB.3D.ANIM.Numbers Song.mp4" |}).
  - reflexivity.
  - now left.
Defined.

(** C2 (counterexample).  The title of the entry made for
    "Numbers Song (3D Anim)" still holds the marker; the normalized
    title "Numbers Song" only appears inside the candidate prefix. *)
Lemma entry_title_keeps_marker :
  content_by_type
    (snd (load_content_from_spreadsheet
            (sheet_of_rows [ [Some "MGC ABC/Counting Videos"];
                             [Some "Numbers Song (3D Anim)"] ])
            ["MGCB.3D.ANIM.Numbers Song.mp4"] fresh))
    !! "MGC ABC/Counting Videos"
  = Some [ {| title := "Numbers Song (3D Anim)";
              file := "MGCB.3D.ANIM.Numbers Song.mp4" |} ]
  /\ remove_markers (strip "Numbers Song (3D Anim)") = "Numbers Song"
  /\ "Numbers Song (3D Anim)" <> "Numbers Song"
  /\ prefixes (resolve ["MGC.ANIM"; "MGCB.2D.ANIM"; "MGCB.3D.ANIM"; "MGC.LIVE"]
                 "Numbers Song (3D Anim)" ["MGCB.3D.ANIM.Numbers Song.mp4"])
     = ["MGCB.3D.ANIM.Numbers Song."].
Proof. repeat split; try reflexivity. discriminate. Qed.

(** C4 (amended).  The table is consulted cell by cell.  The pass
    raises [KeyError] when it reaches the first non-empty cell whose
    column name, stripped, has no entry in the table: the chef is then
    as the cells visited before left it, with their entries and printed
    lines, and nothing is done for that cell or any later one.  When no
    such cell exists the pass returns, even if the header names a
    category the table does not know. *)
Theorem abort_at_first_unconfigured_cell sheet resources s :
  (forall before rc after,
     cells sheet = before ++ rc :: after ->
     (forall x, In x before -> unconfigured sheet x = false) ->
     unconfigured sheet rc = true ->
     fst (run_cells sheet resources before s) = Returned tt
     /\ load_content_from_spreadsheet sheet resources s
        = (Raised (KeyError (cell_type sheet (snd rc))),
           snd (run_cells sheet resources before s)))
  /\ ((forall x, In x (cells sheet) -> unconfigured sheet x = false) ->
      fst (load_content_from_spreadsheet sheet resources s) = Returned tt).
Proof.
  split.
  - intros before rc after E Hb Hrc.
    assert (Hret : fst (run_cells sheet resources before s) = Returned tt).
    { apply for_each_returns. intros x s' Hx. apply visit_configured; [|now apply Hb].
      rewrite E. apply in_or_app. now left. }
    split; [exact Hret|].
    rewrite load_run_cells, E. unfold run_cells in *. rewrite for_each_app.
    destruct (for_each before _ s) as [o s1]. cbn [fst snd] in *. subst o.
    rewrite for_each_cons, visit_unconfigured; [reflexivity | | exact Hrc].
    rewrite E. apply in_or_app. right. now left.
  - intros H. rewrite load_run_cells. apply for_each_returns.
    intros x s' Hx. apply visit_configured; [exact Hx | now apply H].
Qed.

Lemma abort_at_first_unconfigured_cell_witness :
  load_content_from_spreadsheet
    (sheet_of_rows [ [Some "Board Books"; Some "Unknown"];
                     [Some "Three Little Kittens"; Some "X"];
                     [Some "Goldilocks"; None] ])
    ["Board Book.Three Little Kittens.pdf"; "Board Book.Goldilocks.pdf"] fresh
  = (Raised (KeyError "Unknown"),
     {| content_by_type :=
          {[ "Board Books" :=
               [ {| title := "Three Little Kittens";
                    file := "Board Book.Three Little Kittens.pdf" |} ] ]};
        stdout :=
          [ Adding_content
              {| title := "Three Little Kittens";
                 file := "Board Book.Three Little Kittens.pdf" |} ] |}).
Proof.
  apply (proj1 (abort_at_first_unconfigured_cell
                  (sheet_of_rows [ [Some "Board Books"; Some "Unknown"];
                                   [Some "Three Little Kittens"; Some "X"];
                                   [Some "Goldilocks"; None] ])
                  ["Board Book.Three Little Kittens.pdf"; "Board Book.Goldilocks.pdf"]
                  fresh)
           [(2, 1)] (2, 2) [(3, 1); (3, 2)]).
  - reflexivity.
  - intros x [<-|[]]. reflexivity.
  - reflexivity.
Defined.

(** C4 (counterexample).  The header names "Unknown", which the table
    does not hold.  The cell of the first column is handled before the
    [KeyError]: its line is printed and its entry is in the mapping
    when the pass aborts.  With the cell under "Unknown" empty, the
    same header does not abort the pass at all. *)
Lemma output_before_abort :
  TOPIC_FILENAME_PREFIXES !! "Unknown" = None
  /\ load_content_from_spreadsheet
       (sheet_of_rows [ [Some "Board Books"; Some "Unknown"];
                        [Some "Three Little Kittens"; Some "X"] ])
       ["Board Book.Three Little Kittens.pdf"] fresh
     = (Raised (KeyError "Unknown"),
        {| content_by_type :=
             {[ "Board Books" :=
                  [ {| title := "Three Little Kittens";
                       file := "Board Book.Three Little Kittens.pdf" |} ] ]};
           stdout :=
             [ Adding_content
                 {| title := "Three Little Kittens";
                    file := "Board Book.Three Little Kittens.pdf" |} ] |})
  /\ fst (load_content_from_spreadsheet
            (sheet_of_rows [ [Some "Board Books"; Some "Unknown"];
                             [Some "Three Little Kittens"; None] ])
            ["Board Book.Three Little Kittens.pdf"] fresh)
     = Returned tt.
Proof. repeat split; reflexivity. Qed.

(** C1 (the code at the failing input).  The title carries "(Anim)".
    The token SH.ANIM is tried first, and trying it removes the marker
    from [value]; the test on line 144 then no longer sees the marker,
    SH.LIVE is tried as well, and the cell is bound to the live file. *)
Theorem anim_title_bound_to_live_file :
  TOPIC_FILENAME_PREFIXES !! "SH Videos" = Some ["SH.ANIM"; "SH.LIVE"]
  /\ contains anim_str "Foo (Anim)" = true
  /\ contains "LIVE" "SH.LIVE" = true
  /\ resolve ["SH.ANIM"; "SH.LIVE"] "Foo (Anim)" ["SH.LIVE.Foo.mp4"]
     = {| value := "Foo";
          prefixes := ["SH.ANIM.Foo."; "SH.LIVE.Foo."];
          resource_file := Some "SH.LIVE.Foo.mp4" |}
  /\ process_cell ["SH.LIVE.Foo.mp4"] "SH Videos" (Some "Foo (Anim)") fresh
     = (Returned tt,
        {| content_by_type :=
             {[ "SH Videos" :=
                  [ {| title := "Foo (Anim)"; file := "SH.LIVE.Foo.mp4" |} ] ]};
           stdout :=
             [ Adding_content
                 {| title := "Foo (Anim)"; file := "SH.LIVE.Foo.mp4" |} ] |}).
Proof. repeat split; reflexivity. Qed.

(** * Further properties of the search *)

(** X1.  The candidate prefixes of a cell depend on the tokens and the
    title only, not on the directory listing. *)
Theorem candidate_prefixes_ignore_the_listing tokens v resources1 resources2 :
  prefixes (resolve tokens v resources1) = prefixes (resolve tokens v resources2).
Proof. now rewrite !resolve_prefixes. Qed.

(** X2.  The file bound to a cell is a name of the listing that matches one
    of the candidate prefixes of the cell, directly or through a
    substitution. *)
Theorem resolved_file_comes_from_the_listing tokens v resources f :
  resource_file (resolve tokens v resources) = Some f ->
  In f resources
  /\ exists p, In p (prefixes (resolve tokens v resources))
               /\ (direct_match p f = true \/ fallback_match p f = true).
Proof.
  intros E. rewrite resolve_prefixes. rewrite resolve_file in E.
  destruct (search_fold_origin resources
              (candidate_prefixes (choose_prefix_list tokens v) v) None)
    as [E'|(g & p & E' & Hp & Hg & Hm)]; [congruence|].
  rewrite E in E'. injection E' as <-.
  split; [exact Hg|]. exists p. split; [exact Hp|].
  destruct Hm as [He|Hfb].
  - left. now apply andb_true_iff in He as [? _].
  - right. now apply andb_true_iff in Hfb as [_ ?].
Qed.

Lemma resolved_file_comes_from_the_listing_witness :
  In "MGC.ANIM.Old MacDonald Pt. 1.mp4"
    ["MGC.LIVE.Old MacDonald.mp4"; "MGC.ANIM.Old MacDonald Pt. 1.mp4"]
  /\ exists p,
       In p (prefixes
               (resolve ["MGC.ANIM"; "MGC.LIVE"; "MGC.LIVE.EPISODE"]
                  "Old MacDonald, Pt. 1"
                  ["MGC.LIVE.Old MacDonald.mp4"; "MGC.ANIM.Old MacDonald Pt. 1.mp4"]))
       /\ (direct_match p "MGC.ANIM.Old MacDonald Pt. 1.mp4" = true
           \/ fallback_match p "MGC.ANIM.Old MacDonald Pt. 1.mp4" = true).
Proof.
  apply (resolved_file_comes_from_the_listing
           ["MGC.ANIM"; "MGC.LIVE"; "MGC.LIVE.EPISODE"] "Old MacDonald, Pt. 1").
  reflexivity.
Defined.

(** Scenario C of the specification: the title has a comma that the
    file name lacks; no name matches directly and the cell is bound
    through the first substitution of the table. *)
Theorem comma_title_resolved_through_substitution :
  TOPIC_FILENAME_PREFIXES !! "MGCL/MGC Anim Videos"
  = Some ["MGC.ANIM"; "MGC.LIVE"; "MGC.LIVE.EPISODE"]
  /\ direct_match "MGC.ANIM.Old MacDonald, Pt. 1." "MGC.ANIM.Old MacDonald Pt. 1.mp4"
     = false
  /\ replaced_match "MGC.ANIM.Old MacDonald, Pt. 1." "MGC.ANIM.Old MacDonald Pt. 1.mp4"
       (",", "") = true
  /\ process_cell ["MGC.ANIM.Old MacDonald Pt. 1.mp4"] "MGCL/MGC Anim Videos"
       (Some "Old MacDonald, Pt. 1") fresh
     = (Returned tt,
        {| content_by_type :=
             {[ "MGCL/MGC Anim Videos" :=
                  [ {| title := "Old MacDonald, Pt. 1";
                       file := "MGC.ANIM.Old MacDonald Pt. 1.mp4" |} ] ]};
           stdout :=
             [ Adding_content
                 {| title := "Old MacDonald, Pt. 1";
                    file := "MGC.ANIM.Old MacDonald Pt. 1.mp4" |} ] |}).
Proof. repeat split; reflexivity. Qed.

(** The tokens of a configured category. *)
Lemma configured_tokens type tokens :
  TOPIC_FILENAME_PREFIXES !! type = Some tokens ->
  In tokens
    [ ["SH.ANIM"; "SH.LIVE"]; ["Mini Book"]; ["Website.Activity Book"];
      ["Board Book"]; ["MGC.ANIM"; "MGC.LIVE"; "MGC.LIVE.EPISODE"];
      ["PH.ANIM"; "PH.LIVE"];
      ["MGC.ANIM"; "MGCB.2D.ANIM"; "MGCB.3D.ANIM"; "MGC.LIVE"] ].
Proof.
  intros H. unfold TOPIC_FILENAME_PREFIXES in H.
  apply elem_of_list_to_map_2 in H. rewrite !elem_of_cons in H.
  cbn [In].
  repeat (destruct H as [[= -> ->]|H]; [tauto|]).
  now apply elem_of_nil in H.
Qed.

(** Decide the guards of lines 144 and 147 in [H]: a test on two
    literals is evaluated, a test on the title splits the proof. *)
Ltac guard_cases H :=
  repeat (cbn [candidate_prefixes] in H;
          match type of H with
          | context [contains ?m ?x] =>
              let b := eval vm_compute in (contains m x) in
              first [ match b with true => idtac | false => idtac end;
                      change (contains m x) with b in H
                    | destruct (contains m x) eqn:?; try discriminate ]
          end;
          cbn [andb] in H).

(** X3.  In the configured table every token with ANIM comes before the
    tokens with LIVE, so for a title that carries "(Live)" the guard of
    line 147 is still on when the ANIM tokens are met: none of the
    candidate prefixes of the cell is built on a token with ANIM. *)
Theorem live_title_skips_anim_tokens type tokens v resources p :
  TOPIC_FILENAME_PREFIXES !! type = Some tokens ->
  contains live_str v = true ->
  In p (prefixes (resolve tokens v resources)) ->
  exists token v',
    In token tokens /\ contains "ANIM" token = false /\ p = format_prefix token v'.
Proof.
  intros Ht Hlive Hp. rewrite resolve_prefixes in Hp.
  apply configured_tokens in Ht. unfold choose_prefix_list in Hp.
  destruct (contains "(2D Anim)" v); [guard_cases Hp; destruct Hp|].
  destruct (contains "(3D Anim)" v); [guard_cases Hp; destruct Hp|].
  cbn [In] in Ht.
  repeat (destruct Ht as [<-|Ht]; [guard_cases Hp|]); try destruct Ht;
    repeat (destruct Hp as [<-|Hp]); try destruct Hp;
    (do 2 eexists; (split; [|split]); revgoals;
     [reflexivity | reflexivity | cbn [In]; tauto]).
Qed.

Lemma live_title_skips_anim_tokens_witness :
  exists token v',
    In token ["SH.ANIM"; "SH.LIVE"]
    /\ contains "ANIM" token = false
    /\ "SH.LIVE.Foo." = format_prefix token v'.
Proof.
  apply (live_title_skips_anim_tokens "SH Videos" ["SH.ANIM"; "SH.LIVE"]
           "Foo (Live)" ["SH.ANIM.Foo.mp4"; "SH.LIVE.Foo.mp4"] "SH.LIVE.Foo.").
  - reflexivity.
  - reflexivity.
  - vm_compute. now left.
Defined.

(** * Candidate prefixes of plain and of 2-D/3-D titles (lines 135-154) *)

(** X4.  A title that is stripped and holds none of the four markers
    is tried against every token of its category, in the order of the
    table, and goes into the candidate prefixes unchanged. *)
Theorem plain_title_tries_every_token tokens v resources :
  strip v = v ->
  has_marker v = false ->
  prefixes (resolve tokens v resources)
  = map (fun token => format_prefix token v) tokens.
Proof.
  intros Hs Hm. rewrite resolve_prefixes.
  assert (Hfix : remove_markers v = v) by now apply remove_markers_fixed.
  apply has_marker_false in Hm as (Ha & Hl & H2 & H3).
  unfold choose_prefix_list. rewrite H2, H3.
  induction tokens as [|t tokens IH]; [reflexivity|].
  cbn [candidate_prefixes map]. rewrite Ha, Hl. cbn [andb].
  rewrite Hfix. now rewrite IH.
Qed.

Lemma plain_title_tries_every_token_witness :
  prefixes (resolve ["MGC.ANIM"; "MGC.LIVE"; "MGC.LIVE.EPISODE"] "Itsy Bitsy Spider"
              ["MGC.LIVE.Itsy Bitsy Spider.mp4"])
  = map (fun token => format_prefix token "Itsy Bitsy Spider")
      ["MGC.ANIM"; "MGC.LIVE"; "MGC.LIVE.EPISODE"].
Proof.
  apply plain_title_tries_every_token; reflexivity.
Defined.

(** X5.  A title with "(2D Anim)" has the single candidate prefix built
    on MGCB.2D.ANIM, whatever the tokens of its category; "(3D Anim)"
    does the same with MGCB.3D.ANIM when "(2D Anim)" is absent.  When
    such a title also holds "(Live)", the only token is skipped, there
    is no candidate prefix and the cell is never bound to a file. *)
Theorem variant_marker_overrides_tokens tokens v resources :
  (contains "(2D Anim)" v = true -> contains live_str v = false ->
   prefixes (resolve tokens v resources)
   = [format_prefix "MGCB.2D.ANIM" (remove_markers v)])
  /\ (contains "(2D Anim)" v = false -> contains "(3D Anim)" v = true ->
      contains live_str v = false ->
      prefixes (resolve tokens v resources)
      = [format_prefix "MGCB.3D.ANIM" (remove_markers v)])
  /\ (contains "(2D Anim)" v = true \/ contains "(3D Anim)" v = true ->
      contains live_str v = true ->
      prefixes (resolve tokens v resources) = []
      /\ resource_file (resolve tokens v resources) = None).
Proof.
  rewrite resolve_prefixes, resolve_file. unfold choose_prefix_list.
  repeat apply conj.
  - intros H2 Hl. rewrite H2. cbn [candidate_prefixes]. rewrite Hl.
    change (contains "LIVE" "MGCB.2D.ANIM") with false.
    now rewrite andb_false_r.
  - intros H2 H3 Hl. rewrite H2, H3. cbn [candidate_prefixes]. rewrite Hl.
    change (contains "LIVE" "MGCB.3D.ANIM") with false.
    now rewrite andb_false_r.
  - intros H Hl.
    assert (E : candidate_prefixes
                  (if contains "(2D Anim)" v then ["MGCB.2D.ANIM"]
                   else if contains "(3D Anim)" v then ["MGCB.3D.ANIM"] else tokens) v
                = []).
    { destruct (contains "(2D Anim)" v).
      - cbn [candidate_prefixes]. rewrite Hl.
        change (contains "ANIM" "MGCB.2D.ANIM") with true.
        change (contains "LIVE" "MGCB.2D.ANIM") with false.
        now rewrite andb_false_r.
      - destruct H as [H|H]; [discriminate|]. rewrite H.
        cbn [candidate_prefixes]. rewrite Hl.
        change (contains "ANIM" "MGCB.3D.ANIM") with true.
        change (contains "LIVE" "MGCB.3D.ANIM") with false.
        now rewrite andb_false_r. }
    rewrite E. now split.
Qed.

Lemma variant_marker_overrides_tokens_witness :
  prefixes (resolve ["Board Book"] "Numbers Song (2D Anim)" ["Board Book.Numbers Song.pdf"])
  = [format_prefix "MGCB.2D.ANIM" (remove_markers "Numbers Song (2D Anim)")].
Proof.
  apply (proj1 (variant_marker_overrides_tokens _ _ _)); reflexivity.
Defined.

(** * When a cell stays without a file (lines 155-176) *)

Lemma search_prefix_fallback_some resources rf p g :
  In g resources -> fallback_only p g = true ->
  exists f, search_prefix resources rf p = Some f.
Proof.
  intros Hg Hfb. unfold search_prefix.
  assert (E : exists f, snd (scan_resources p resources rf) = Some f).
  { rewrite scan_resources_spec. cbn [snd]. clear -Hg Hfb.
    revert rf; induction resources as [|r rs IH]; intros rf; [destruct Hg|].
    cbn [fold_left]. destruct Hg as [->|Hg].
    - rewrite Hfb.
      pose proof (scan_snd_some p rs g) as [f Hf].
      rewrite scan_resources_spec in Hf. cbn [snd] in Hf. eauto.
    - now apply IH. }
  destruct E as [f ->]. apply select_some.
Qed.

(** X6.  The search of a cell ends without a file exactly when, for
    every candidate prefix, no name of the listing is a direct match
    other than a .mov file and no name is matched through a
    substitution only. *)
Theorem unresolved_iff_no_selectable_match tokens v resources :
  resource_file (resolve tokens v resources) = None
  <-> (forall p g, In p (prefixes (resolve tokens v resources)) -> In g resources ->
         eligible p g = false /\ fallback_only p g = false).
Proof.
  rewrite resolve_prefixes, resolve_file.
  set (ps := candidate_prefixes (choose_prefix_list tokens v) v).
  split.
  - intros E p g Hp Hg.
    destruct (in_split _ _ Hp) as (ps1 & ps2 & Eps).
    assert (Hstep : forall f,
              search_prefix resources (fold_left (search_prefix resources) ps1 None) p
              = Some f -> False).
    { intros f Hf. rewrite Eps, fold_left_app in E. cbn [fold_left] in E.
      rewrite Hf in E. destruct (search_fold_some resources ps2 f) as [x Hx].
      congruence. }
    split.
    + destruct (eligible p g) eqn:He; [|reflexivity]. exfalso.
      destruct (search_prefix_bound resources
                  (fold_left (search_prefix resources) ps1 None) p g)
        as (f & Hf & _); [|exact Hg|exact He|now apply (Hstep f)].
      subst ps. eapply candidate_prefixes_truthy; exact Hp.
    + destruct (fallback_only p g) eqn:Hfb; [|reflexivity]. exfalso.
      destruct (search_prefix_fallback_some resources
                  (fold_left (search_prefix resources) ps1 None) p g Hg Hfb)
        as [f Hf].
      now apply (Hstep f).
  - intros H.
    destruct (search_fold_origin resources ps None)
      as [E|(f & p & _ & Hp & Hf & Hm)]; [exact E|].
    destruct (H p f Hp Hf) as [He Hfb]. destruct Hm; congruence.
Qed.

(** The substitutions leave a prefix alone that holds none of their
    patterns; such a prefix is never matched through a substitution
    only. *)
Lemma plain_prefix_no_fallback p g :
  (forall r, In r replacements -> contains (fst r) p = false) ->
  fallback_only p g = false.
Proof.
  intros H. unfold fallback_only, fallback_match.
  destruct (direct_match p g) eqn:Hd; [reflexivity|]. cbn [negb andb].
  apply not_true_is_false. intros Hex.
  apply existsb_exists in Hex as (r & Hr & Hm).
  unfold replaced_match in Hm. rewrite (replace_absent _ _ _ (H r Hr)) in Hm.
  unfold direct_match in Hd. congruence.
Qed.

(** X7.  When no candidate prefix of a cell holds a comma or one of
    " Group", " Noa", " Robert", " Caralyn", the substitutions play no
    part: the cell is bound to the first of the shortest direct matches
    that are not .mov files, the matches being taken candidate prefix
    by candidate prefix and, for each, in the order of the listing; it
    stays without a file when there is no such match. *)
Theorem plain_prefixes_select_first_shortest tokens v resources :
  (forall p r, In p (prefixes (resolve tokens v resources)) -> In r replacements ->
     contains (fst r) p = false) ->
  resource_file (resolve tokens v resources)
  = first_shortest (eligible_matches (prefixes (resolve tokens v resources)) resources).
Proof.
  intros H. apply resolve_no_fallback.
  intros p g Hp _. apply plain_prefix_no_fallback.
  intros r Hr. now apply H.
Qed.

Lemma plain_prefixes_select_first_shortest_witness :
  resource_file
    (resolve ["PH.ANIM"; "PH.LIVE"] "Rain Rain Go Away"
       ["PH.LIVE.Rain Rain Go Away.Long Version.mp4";
        "PH.LIVE.Rain Rain Go Away.mp4";
        "PH.ANIM.Rain Rain Go Away.mov"])
  = first_shortest
      (eligible_matches
         (prefixes
            (resolve ["PH.ANIM"; "PH.LIVE"] "Rain Rain Go Away"
               ["PH.LIVE.Rain Rain Go Away.Long Version.mp4";
                "PH.LIVE.Rain Rain Go Away.mp4";
                "PH.ANIM.Rain Rain Go Away.mov"]))
         ["PH.LIVE.Rain Rain Go Away.Long Version.mp4";
          "PH.LIVE.Rain Rain Go Away.mp4";
          "PH.ANIM.Rain Rain Go Away.mov"]).
Proof.
  apply plain_prefixes_select_first_shortest.
  intros p r Hp Hr. vm_compute in Hp.
  destruct Hp as [<-|[<-|[]]];
    repeat (destruct Hr as [<-|Hr]; [reflexivity|]); destruct Hr.
Defined.

(** * The output of the pass, cell by cell (lines 121-183) *)

Section Trace.

Variable sheet : worksheet.
Variable resources : list string.

Implicit Types s : chef.
Implicit Types rc : nat * nat.

Lemma visit_result rc s :
  In rc (cells sheet) ->
  visit sheet resources (read_col_names sheet) (fst rc) (snd rc) s
  = match cell_result_of sheet resources rc with
    | Skipped => (Returned tt, s)
    | Unconfigured t => (Raised (KeyError t), s)
    | Unresolved ps =>
        (Returned tt,
         {| content_by_type := content_by_type s;
            stdout := stdout s ++ [Unable_to_find_file_for ps] |})
    | Resolved t c =>
        (Returned tt,
         {| content_by_type :=
              <[t := default [] (content_by_type s !! t) ++ [c]]> (content_by_type s);
            stdout := stdout s ++ [Adding_content c] |})
    end.
Proof.
  destruct rc as [r c]. cbn [fst snd]. intros Hin.
  rewrite visit_spec by exact Hin. unfold cell_result_of, process_cell. cbn [fst snd].
  destruct (truthy (col_name sheet c)); [|reflexivity].
  destruct (cell sheet r c) as [v|]; [|reflexivity].
  destruct (truthy v); [|reflexivity].
  destruct (TOPIC_FILENAME_PREFIXES !! cell_type sheet c) as [tokens|]; [|reflexivity].
  now destruct (found (resource_file (resolve tokens (strip v) resources))).
Qed.

Lemma unconfigured_result rc :
  unconfigured sheet rc = true
  <-> exists t, cell_result_of sheet resources rc = Unconfigured t.
Proof.
  unfold unconfigured, cell_result_of.
  destruct (truthy (col_name sheet (snd rc))); cbn [andb];
    [|split; [discriminate | now intros [t ?]]].
  destruct (cell sheet (fst rc) (snd rc)) as [v|];
    [|split; [discriminate | now intros [t ?]]].
  destruct (truthy v); cbn [andb]; [|split; [discriminate | now intros [t ?]]].
  destruct (TOPIC_FILENAME_PREFIXES !! cell_type sheet (snd rc)) as [tokens|].
  - split; [discriminate|]. intros [t H].
    now destruct (found (resource_file (resolve tokens (strip v) resources))).
  - split; [eauto | reflexivity].
Qed.

Lemma before_abort_split cs :
  exists rest,
    cs = before_abort sheet cs ++ rest
    /\ (forall x, In x (before_abort sheet cs) -> unconfigured sheet x = false)
    /\ match rest with
       | [] => True
       | rc :: _ => unconfigured sheet rc = true
       end.
Proof.
  induction cs as [|rc cs (rest & E & Hb & Hr)]; [now exists []|].
  cbn [before_abort]. destruct (unconfigured sheet rc) eqn:Hu.
  - exists (rc :: cs). repeat split; [intros x [] | exact Hu].
  - exists rest. repeat split; [cbn [app]; now rewrite <- E | | exact Hr].
    intros x [<-|Hx]; [exact Hu | now apply Hb].
Qed.

(** The chef after the pass is the chef after the cells that come
    before the first [KeyError]. *)
Lemma run_cells_before_abort cs s :
  (forall x, In x cs -> In x (cells sheet)) ->
  snd (run_cells sheet resources cs s)
  = snd (run_cells sheet resources (before_abort sheet cs) s)
  /\ fst (run_cells sheet resources (before_abort sheet cs) s) = Returned tt.
Proof.
  intros Hcs. destruct (before_abort_split cs) as (rest & E & Hb & Hr).
  assert (Hin : forall x, In x (before_abort sheet cs) -> In x (cells sheet)).
  { intros x Hx. apply Hcs. rewrite E. apply in_or_app. now left. }
  assert (Hret : fst (run_cells sheet resources (before_abort sheet cs) s) = Returned tt).
  { apply for_each_returns. intros x s' Hx.
    apply visit_configured; [now apply Hin | now apply Hb]. }
  split; [|exact Hret].
  rewrite E at 1. unfold run_cells in *. rewrite for_each_app.
  destruct (for_each (before_abort sheet cs) _ s) as [o s1]. cbn [fst snd] in *. subst o.
  destruct rest as [|rc rest]; [reflexivity|].
  rewrite for_each_cons, visit_unconfigured; [reflexivity | | exact Hr].
  apply Hcs. rewrite E. apply in_or_app. right. now left.
Qed.

Lemma entries_of_app type l1 l2 :
  entries_of type (l1 ++ l2) = entries_of type l1 ++ entries_of type l2.
Proof. unfold entries_of. apply flat_map_app. Qed.

Lemma lines_of_app l1 l2 : lines_of (l1 ++ l2) = lines_of l1 ++ lines_of l2.
Proof. unfold lines_of. apply flat_map_app. Qed.

Lemma grouped_step s results t c :
  grouped s results ->
  grouped
    {| content_by_type :=
         <[t := default [] (content_by_type s !! t) ++ [c]]> (content_by_type s);
       stdout := stdout s ++ [Adding_content c] |}
    (results ++ [Resolved t c]).
Proof.
  intros G type. cbn [content_by_type]. rewrite entries_of_app.
  cbn [entries_of flat_map]. rewrite app_nil_r.
  destruct (String.eqb_spec t type) as [<-|Hne].
  - rewrite lookup_insert_eq, (G t).
    destruct (entries_of t results) as [|e l]; reflexivity.
  - rewrite lookup_insert_ne by exact Hne. rewrite app_nil_r. apply G.
Qed.

Lemma run_cells_trace cs s results :
  (forall x, In x cs -> In x (cells sheet)) ->
  (forall x, In x cs -> unconfigured sheet x = false) ->
  grouped s results ->
  grouped (snd (run_cells sheet resources cs s))
    (results ++ map (cell_result_of sheet resources) cs)
  /\ stdout (snd (run_cells sheet resources cs s))
     = stdout s ++ lines_of (map (cell_result_of sheet resources) cs).
Proof.
  revert s results; induction cs as [|rc cs IH]; intros s results Hin Hok G.
  - cbn [map]. rewrite !app_nil_r. now split.
  - assert (Hin' : forall x, In x cs -> In x (cells sheet))
      by (intros x Hx; apply Hin; now right).
    assert (Hok' : forall x, In x cs -> unconfigured sheet x = false)
      by (intros x Hx; apply Hok; now right).
    assert (Hstep : forall s1 res,
              cell_result_of sheet resources rc = res ->
              grouped s1 (results ++ [res]) ->
              stdout s1 = stdout s ++ lines_of [res] ->
              grouped (snd (run_cells sheet resources cs s1))
                (results ++ res :: map (cell_result_of sheet resources) cs)
              /\ stdout (snd (run_cells sheet resources cs s1))
                 = stdout s
                   ++ lines_of (res :: map (cell_result_of sheet resources) cs)).
    { intros s1 res _ G1 E1. destruct (IH s1 (results ++ [res]) Hin' Hok' G1) as [IHg IHs].
      rewrite <- app_assoc in IHg. split; [exact IHg|].
      rewrite IHs, E1, <- app_assoc. f_equal.
      symmetry. apply (lines_of_app [res]). }
    cbn [map]. unfold run_cells at 1 2. rewrite for_each_cons.
    rewrite visit_result by (apply Hin; now left).
    fold (run_cells sheet resources cs).
    destruct (cell_result_of sheet resources rc) as [|t|ps|t c] eqn:Er.
    + apply Hstep; [reflexivity | | cbn [lines_of flat_map]; now rewrite app_nil_r].
      intros type. rewrite entries_of_app. cbn [entries_of flat_map].
      rewrite !app_nil_r. apply G.
    + assert (Hu : unconfigured sheet rc = true) by (apply unconfigured_result; eauto).
      rewrite (Hok rc) in Hu by now left. discriminate.
    + apply Hstep; [reflexivity | | reflexivity].
      intros type. rewrite entries_of_app. cbn [entries_of flat_map content_by_type].
      rewrite !app_nil_r. apply G.
    + apply Hstep; [reflexivity | | reflexivity]. now apply grouped_step.
Qed.

End Trace.

(** The chef after the pass from a fresh state, by the results of the
    cells it got through. *)
Lemma load_trace sheet resources :
  grouped (snd (load_content_from_spreadsheet sheet resources fresh))
    (map (cell_result_of sheet resources) (before_abort sheet (cells sheet)))
  /\ stdout (snd (load_content_from_spreadsheet sheet resources fresh))
     = lines_of (map (cell_result_of sheet resources) (before_abort sheet (cells sheet))).
Proof.
  rewrite load_run_cells.
  destruct (run_cells_before_abort sheet resources (cells sheet) fresh) as [-> _];
    [auto|].
  destruct (before_abort_split sheet (cells sheet)) as (rest & E & Hb & _).
  destruct (run_cells_trace sheet resources (before_abort sheet (cells sheet)) fresh [])
    as [G S]; [| exact Hb | intros type; apply lookup_empty | now split].
  intros x Hx. rewrite E. apply in_or_app. now left.
Qed.

Lemma resolve_in_listing tokens v resources f :
  resource_file (resolve tokens v resources) = Some f -> In f resources.
Proof.
  rewrite resolve_file. intros E.
  destruct (search_fold_origin resources
              (candidate_prefixes (choose_prefix_list tokens v) v) None)
    as [E'|(g & p & E' & _ & Hg & _)]; congruence.
Qed.

Lemma found_some rf f : found rf = Some f -> rf = Some f /\ truthy f = true.
Proof.
  destruct rf as [g|]; cbn [found]; [|discriminate].
  destruct (truthy g) eqn:T; [|discriminate]. now intros [= <-].
Qed.

Lemma before_abort_app sheet l1 l2 :
  (forall x, In x l1 -> unconfigured sheet x = false) ->
  before_abort sheet (l1 ++ l2) = l1 ++ before_abort sheet l2.
Proof.
  induction l1 as [|x l1 IH]; intros H; [reflexivity|].
  cbn [app before_abort]. rewrite (H x) by now left.
  f_equal. apply IH. intros y Hy. apply H. now right.
Qed.

Lemma before_abort_all sheet l :
  (forall x, In x l -> unconfigured sheet x = false) -> before_abort sheet l = l.
Proof.
  intros H. rewrite <- (app_nil_r l) at 1.
  rewrite before_abort_app by exact H. apply app_nil_r.
Qed.

(** An entry among the results is in the list the mapping keeps for
    its category. *)
Lemma grouped_resolved s results t e :
  grouped s results -> In (Resolved t e) results ->
  exists l, content_by_type s !! t = Some l /\ In e l.
Proof.
  intros G Hin.
  assert (He : In e (entries_of t results)).
  { unfold entries_of. apply in_flat_map. exists (Resolved t e).
    split; [exact Hin|]. rewrite String.eqb_refl. now left. }
  rewrite (G t). destruct (entries_of t results) as [|x l]; [destruct He|].
  now exists (x :: l).
Qed.

(** C8.  Take a non-empty cell of a configured category for which no
    name of the listing matches any candidate prefix, directly or
    through a substitution.  Visiting it returns normally, adds no
    entry and prints the line that lists the candidate prefixes tried.
    The pass goes on: it ends as it would with that cell empty, raising
    or returning alike and with the same output mapping, and when it
    returns the line is among those printed.  Once the pass has reached
    the cell, the mapping it leaves holds, under each category, exactly
    the entries of the other cells bound to a file, those visited
    before the cell and those visited after it, as far as the pass gets
    (to the end of the sheet, unless a later cell raises [KeyError]);
    the entry of every such cell is in the list of its category; the
    line of the cell is printed between the lines of the cells before
    and the lines of the cells after; and the pass returns when no
    later cell raises [KeyError]. *)
Theorem unresolved_cell_is_skipped sheet resources r c v tokens :
  In (r, c) (cells sheet) ->
  truthy (col_name sheet c) = true ->
  cell sheet r c = Some v ->
  truthy v = true ->
  TOPIC_FILENAME_PREFIXES !! cell_type sheet c = Some tokens ->
  (forall p g, In p (prefixes (resolve tokens (strip v) resources)) ->
     In g resources ->
     direct_match p g = false /\ fallback_match p g = false) ->
  (forall s,
     visit sheet resources (read_col_names sheet) r c s
     = (Returned tt,
        {| content_by_type := content_by_type s;
           stdout := stdout s
                     ++ [Unable_to_find_file_for
                           (prefixes (resolve tokens (strip v) resources))] |}))
  /\ fst (load_content_from_spreadsheet sheet resources fresh)
     = fst (load_content_from_spreadsheet (blank sheet r c) resources fresh)
  /\ content_by_type (snd (load_content_from_spreadsheet sheet resources fresh))
     = content_by_type
         (snd (load_content_from_spreadsheet (blank sheet r c) resources fresh))
  /\ (fst (load_content_from_spreadsheet sheet resources fresh) = Returned tt ->
      In (Unable_to_find_file_for (prefixes (resolve tokens (strip v) resources)))
         (stdout (snd (load_content_from_spreadsheet sheet resources fresh))))
  /\ (forall before after,
        cells sheet = before ++ (r, c) :: after ->
        (forall x, In x before -> unconfigured sheet x = false) ->
        (forall type,
           content_by_type (snd (load_content_from_spreadsheet sheet resources fresh))
             !! type
           = match entries_of type
                     (map (cell_result_of sheet resources)
                        (before ++ before_abort sheet after))
             with
             | [] => None
             | l => Some l
             end)
        /\ (forall rc type e,
              In rc (before ++ before_abort sheet after) ->
              cell_result_of sheet resources rc = Resolved type e ->
              exists l,
                content_by_type
                  (snd (load_content_from_spreadsheet sheet resources fresh)) !! type
                = Some l
                /\ In e l)
        /\ stdout (snd (load_content_from_spreadsheet sheet resources fresh))
           = lines_of (map (cell_result_of sheet resources) before)
             ++ Unable_to_find_file_for (prefixes (resolve tokens (strip v) resources))
                :: lines_of (map (cell_result_of sheet resources)
                               (before_abort sheet after))
        /\ ((forall x, In x after -> unconfigured sheet x = false) ->
            before_abort sheet after = after
            /\ fst (load_content_from_spreadsheet sheet resources fresh) = Returned tt)).
Proof.
  intros Hin Hname Hcell Hv Htok Hnone.
  assert (Hvisit : forall s,
     visit sheet resources (read_col_names sheet) r c s
     = (Returned tt,
        {| content_by_type := content_by_type s;
           stdout := stdout s
                     ++ [Unable_to_find_file_for
                           (prefixes (resolve tokens (strip v) resources))] |})).
  { intros s. rewrite visit_spec by exact Hin. rewrite Hname. unfold process_cell.
    rewrite Hcell, Hv, Htok, (no_match_unresolved _ _ _ Hnone). reflexivity. }
  split; [exact Hvisit|].
  assert (Hr : (2 <= r)%nat) by (apply in_cells in Hin; lia).
  assert (Hsim :
    fst (load_content_from_spreadsheet sheet resources fresh)
    = fst (load_content_from_spreadsheet (blank sheet r c) resources fresh)
    /\ content_by_type (snd (load_content_from_spreadsheet sheet resources fresh))
       = content_by_type
           (snd (load_content_from_spreadsheet (blank sheet r c) resources fresh))).
  { rewrite !load_run_cells. unfold run_cells.
    rewrite blank_col_names by exact Hr.
    change (cells (blank sheet r c)) with (cells sheet).
    apply (for_each_related
             (fun s1 s2 => content_by_type s1 = content_by_type s2)); [|reflexivity].
    intros [r' c'] t1 t2 Hin' E. cbn [fst snd].
    destruct (decide ((r', c') = (r, c))) as [[= -> ->]|Hne].
    - rewrite Hvisit. unfold visit.
      rewrite read_col_names_lookup by (apply in_cells in Hin; lia).
      rewrite Hname, blank_cell_same. now split.
    - rewrite visit_spec by exact Hin'. unfold visit.
      rewrite read_col_names_lookup by (apply in_cells in Hin'; lia).
      rewrite blank_cell_other by exact Hne.
      fold (cell_type sheet c').
      destruct (truthy (col_name sheet c')); [|now split].
      now apply process_cell_same_content. }
  destruct Hsim as [Hout Hcontent].
  split; [exact Hout|]. split; [exact Hcontent|]. clear Hout Hcontent. split.
  { intros Hret.
  destruct (in_split _ _ Hin) as (before & after & E).
  assert (Hafter : forall rc, In rc after -> In rc (cells sheet)).
  { intros rc Hrc. rewrite E. apply in_or_app. right. now right. }
  rewrite load_run_cells in Hret |- *. unfold run_cells in Hret |- *.
  rewrite E, for_each_app in Hret |- *.
  destruct (for_each before _ fresh) as [[[]|e] s1]; [|discriminate].
  rewrite for_each_cons in Hret |- *. cbn [fst snd] in Hret |- *.
  rewrite Hvisit in Hret |- *.
  destruct (run_cells_stdout sheet resources after
              {| content_by_type := content_by_type s1;
                 stdout := stdout s1
                           ++ [Unable_to_find_file_for
                                 (prefixes (resolve tokens (strip v) resources))] |}
              Hafter) as [more Hmore].
  unfold run_cells in Hmore. rewrite Hmore. cbn [stdout].
  apply in_or_app. left. apply in_or_app. right. now left. }
  intros before after E Hb.
  assert (Hu : unconfigured sheet (r, c) = false).
  { unfold unconfigured. cbn [fst snd]. rewrite Htok. apply andb_false_r. }
  assert (Hres : cell_result_of sheet resources (r, c)
                 = Unresolved (prefixes (resolve tokens (strip v) resources))).
  { unfold cell_result_of. cbn [fst snd].
    now rewrite Hname, Hcell, Hv, Htok, (no_match_unresolved _ _ _ Hnone). }
  assert (Hba : before_abort sheet (cells sheet)
                = before ++ (r, c) :: before_abort sheet after).
  { rewrite E, before_abort_app by exact Hb. cbn [before_abort]. now rewrite Hu. }
  destruct (load_trace sheet resources) as [G S]. rewrite Hba in G, S.
  assert (G' : grouped (snd (load_content_from_spreadsheet sheet resources fresh))
                 (map (cell_result_of sheet resources)
                    (before ++ before_abort sheet after))).
  { intros type. rewrite (G type), !map_app, !entries_of_app. cbn [map].
    rewrite Hres. reflexivity. }
  split; [exact G'|]. split; [|split].
  - intros rc type e Hrc Hrc'. apply (grouped_resolved _ _ _ _ G').
    rewrite <- Hrc'. now apply in_map.
  - rewrite S, map_app, lines_of_app. cbn [map]. now rewrite Hres.
  - intros Ha. split; [now apply before_abort_all|].
    rewrite load_run_cells. apply for_each_returns. intros x s' Hx.
    apply visit_configured; [exact Hx|].
    rewrite E in Hx. apply in_app_or in Hx as [Hx|[<-|Hx]];
      [now apply Hb | exact Hu | now apply Ha].
Qed.

Lemma unresolved_cell_is_skipped_witness :
  content_by_type
    (snd (load_content_from_spreadsheet
            (sheet_of_rows [ [Some "Board Books"];
                             [Some "Goldilocks"];
                             [Some "Missing Title"];
                             [Some "Three Little Kittens"] ])
            ["Board Book.Three Little Kittens.pdf"; "Board Book.Goldilocks.pdf"] fresh))
    !! "Board Books"
  = Some [ {| title := "Goldilocks"; file := "Board Book.Goldilocks.pdf" |};
           {| title := "Three Little Kittens";
              file := "Board Book.Three Little Kittens.pdf" |} ]
  /\ stdout
       (snd (load_content_from_spreadsheet
               (sheet_of_rows [ [Some "Board Books"];
                                [Some "Goldilocks"];
                                [Some "Missing Title"];
                                [Some "Three Little Kittens"] ])
               ["Board Book.Three Little Kittens.pdf"; "Board Book.Goldilocks.pdf"] fresh))
     = [ Adding_content {| title := "Goldilocks"; file := "Board Book.Goldilocks.pdf" |};
         Unable_to_find_file_for ["Board Book.Missing Title."];
         Adding_content {| title := "Three Little Kittens";
                           file := "Board Book.Three Little Kittens.pdf" |} ]
  /\ fst (load_content_from_spreadsheet
            (sheet_of_rows [ [Some "Board Books"];
                             [Some "Goldilocks"];
                             [Some "Missing Title"];
                             [Some "Three Little Kittens"] ])
            ["Board Book.Three Little Kittens.pdf"; "Board Book.Goldilocks.pdf"] fresh)
     = Returned tt.
Proof.
  destruct (unresolved_cell_is_skipped
              (sheet_of_rows [ [Some "Board Books"];
                               [Some "Goldilocks"];
                               [Some "Missing Title"];
                               [Some "Three Little Kittens"] ])
              ["Board Book.Three Little Kittens.pdf"; "Board Book.Goldilocks.pdf"]
              3 1 "Missing Title" ["Board Book"])
    as (_ & _ & _ & _ & H).
  - vm_compute. right. now left.
  - reflexivity.
  - reflexivity.
  - reflexivity.
  - reflexivity.
  - intros p g Hp Hg. vm_compute in Hp. destruct Hp as [<-|[]].
    destruct Hg as [<-|[<-|[]]]; split; reflexivity.
  - destruct (H [(2, 1)] [(4, 1)]) as (Hc & _ & Hs & Hr).
    + reflexivity.
    + intros x [<-|[]]. reflexivity.
    + split; [|split].
      * rewrite Hc. reflexivity.
      * rewrite Hs. reflexivity.
      * apply Hr. intros x [<-|[]]. reflexivity.
Defined.

(** Scenario D of the specification, evaluated: the row without a file
    is left out, its line is printed, and the row after it is bound. *)
Example unresolved_row_scenario :
  load_content_from_spreadsheet
    (sheet_of_rows [ [Some "Board Books"];
                     [Some "Missing Title"];
                     [Some "Three Little Kittens"] ])
    ["Board Book.Three Little Kittens.pdf"] fresh
  = (Returned tt,
     {| content_by_type :=
          {[ "Board Books" :=
               [ {| title := "Three Little Kittens";
                    file := "Board Book.Three Little Kittens.pdf" |} ] ]};
        stdout :=
          [ Unable_to_find_file_for ["Board Book.Missing Title."];
            Adding_content
              {| title := "Three Little Kittens";
                 file := "Board Book.Three Little Kittens.pdf" |} ] |}).
Proof. reflexivity. Qed.

(** X8.  After the pass the mapping holds, under each category, exactly
    the entries of the cells of that category that were bound to a
    file, in the order the cells are visited (row by row, and within a
    row column by column), up to the first cell that raises [KeyError];
    a category none of whose cells was bound has no key at all. *)
Theorem content_by_type_groups_entries sheet resources type :
  content_by_type (snd (load_content_from_spreadsheet sheet resources fresh)) !! type
  = match entries_of type
            (map (cell_result_of sheet resources) (before_abort sheet (cells sheet)))
    with
    | [] => None
    | l => Some l
    end.
Proof. apply (proj1 (load_trace sheet resources)). Qed.

(** X9.  The pass prints one line for every non-empty cell under a
    named column that it gets through, in the order of the visit:
    the entry when the cell was bound to a file, the candidate prefixes
    tried when it was not.  Empty cells and cells under an empty column
    name print nothing, and nothing is printed for the cell that raises
    [KeyError] or after it. *)
Theorem stdout_lists_visited_cells sheet resources :
  stdout (snd (load_content_from_spreadsheet sheet resources fresh))
  = lines_of (map (cell_result_of sheet resources) (before_abort sheet (cells sheet))).
Proof. apply (proj2 (load_trace sheet resources)). Qed.

(** X10.  Every entry of the output mapping is bound to a name of the
    directory listing, and that name is not the empty string. *)
Theorem entry_file_is_in_listing sheet resources type l e :
  content_by_type (snd (load_content_from_spreadsheet sheet resources fresh)) !! type
  = Some l ->
  In e l ->
  In (file e) resources /\ truthy (file e) = true.
Proof.
  rewrite (proj1 (load_trace sheet resources) type). intros El He.
  assert (Hin : In e (entries_of type
                        (map (cell_result_of sheet resources)
                           (before_abort sheet (cells sheet))))).
  { destruct (entries_of type _) as [|x xs]; [discriminate|]. now injection El as <-. }
  clear El He. unfold entries_of in Hin.
  apply in_flat_map in Hin as (res & Hres & Hin).
  apply in_map_iff in Hres as (rc & Hrc & _).
  destruct res as [| | |t c]; try destruct Hin.
  destruct (String.eqb t type); [|destruct Hin]. destruct Hin as [->|[]].
  unfold cell_result_of in Hrc.
  destruct (truthy (col_name sheet (snd rc))); [|discriminate].
  destruct (cell sheet (fst rc) (snd rc)) as [v|]; [|discriminate].
  destruct (truthy v); [|discriminate].
  destruct (TOPIC_FILENAME_PREFIXES !! cell_type sheet (snd rc)) as [tokens|];
    [|discriminate].
  destruct (found (resource_file (resolve tokens (strip v) resources))) as [f|] eqn:Ef;
    [|discriminate].
  injection Hrc as _ <-. cbn [file].
  apply found_some in Ef as [Ef Tf]. split; [|exact Tf].
  now apply (resolve_in_listing tokens (strip v)).
Qed.

Lemma entry_file_is_in_listing_witness :
  In "Board Book.Three Little Kittens.pdf"
     ["Board Book.Goldilocks.pdf"; "Board Book.Three Little Kittens.pdf"]
  /\ truthy "Board Book.Three Little Kittens.pdf" = true.
Proof.
  apply (entry_file_is_in_listing
           (sheet_of_rows [ [Some "Board Books"]; [Some "Three Little Kittens"] ])
           ["Board Book.Goldilocks.pdf"; "Board Book.Three Little Kittens.pdf"]
           "Board Books"
           [ {| title := "Three Little Kittens";
                file := "Board Book.Three Little Kittens.pdf" |} ]
           {| title := "Three Little Kittens";
              file := "Board Book.Three Little Kittens.pdf" |}).
  - reflexivity.
  - now left.
Defined.

(** The trace on a sheet with two categories, an empty cell, a title
    without a file and a column the table does not know. *)
Example trace_example :
  load_content_from_spreadsheet
    (sheet_of_rows
       [ [Some "Board Books"; Some "Mini Books"; Some "Unknown"];
         [Some "Goldilocks"; Some "Hey Diddle Diddle"; None];
         [Some "Missing"; None; None];
         [Some "Three Little Kittens"; Some "Jack and Jill"; Some "X"];
         [Some "Never Reached"; None; None] ])
    ["Board Book.Goldilocks.pdf"; "Board Book.Three Little Kittens.pdf";
     "Mini Book.Hey Diddle Diddle.pdf"; "Mini Book.Jack and Jill.pdf"] fresh
  = (Raised (KeyError "Unknown"),
     {| content_by_type :=
          {[ "Board Books" :=
               [ {| title := "Goldilocks"; file := "Board Book.Goldilocks.pdf" |};
                 {| title := "Three Little Kittens";
                    file := "Board Book.Three Little Kittens.pdf" |} ];
             "Mini Books" :=
               [ {| title := "Hey Diddle Diddle";
                    file := "Mini Book.Hey Diddle Diddle.pdf" |};
                 {| title := "Jack and Jill"; file := "Mini Book.Jack and Jill.pdf" |} ] ]};
        stdout :=
          [ Adding_content {| title := "Goldilocks"; file := "Board Book.Goldilocks.pdf" |};
            Adding_content {| title := "Hey Diddle Diddle";
                              file := "Mini Book.Hey Diddle Diddle.pdf" |};
            Unable_to_find_file_for ["Board Book.Missing."];
            Adding_content {| title := "Three Little Kittens";
                              file := "Board Book.Three Little Kittens.pdf" |};
            Adding_content {| title := "Jack and Jill";
                              file := "Mini Book.Jack and Jill.pdf" |} ] |}).
Proof. reflexivity. Qed.

(** * Paths and the kind of a node (lines 95-103) *)

Section Paths.

Implicit Types a b s t p f stem : string.
Implicit Types c x : ascii.

Lemma sapp_cons x a t : String x a +:+ t = String x (a +:+ t).
Proof. reflexivity. Qed.

Lemma sapp_nil_l t : "" +:+ t = t.
Proof. reflexivity. Qed.

Lemma sapp_assoc a b t : (a +:+ b) +:+ t = a +:+ (b +:+ t).
Proof.
  induction a as [|x a IH]; [reflexivity|]. now rewrite !sapp_cons, IH.
Qed.

Lemma sapp_split a1 b1 a2 b2 :
  a1 +:+ b1 = a2 +:+ b2 -> (String.length a1 <= String.length a2)%nat ->
  exists m, a2 = a1 +:+ m /\ b1 = m +:+ b2.
Proof.
  revert a2; induction a1 as [|x a1 IH]; intros a2 E L.
  - exists a2. now split.
  - destruct a2 as [|y a2]; [cbn [String.length] in L; lia|].
    rewrite !sapp_cons in E. injection E as -> E.
    destruct (IH a2 E) as (m & -> & ->); [cbn [String.length] in L; lia|].
    now exists m.
Qed.

Lemma occurs_app c a b : occurs c (a +:+ b) = occurs c a || occurs c b.
Proof.
  induction a as [|x a IH]; [reflexivity|].
  rewrite sapp_cons. cbn [occurs]. now rewrite IH, orb_assoc.
Qed.

(** *** [rfind] *)

Lemma rfind_range c s :
  (-1 <= rfind c s < Z.of_nat (String.length s))%Z.
Proof.
  induction s as [|x s IH]; cbn [rfind String.length]; [lia|].
  destruct (0 <=? rfind c s)%Z eqn:E; [apply Z.leb_le in E; lia|].
  destruct (Ascii.eqb x c); lia.
Qed.

Lemma rfind_absent c s : occurs c s = false -> rfind c s = (-1)%Z.
Proof.
  induction s as [|x s IH]; cbn [rfind occurs]; [reflexivity|].
  intros H. apply orb_false_iff in H as [Hx Hs]. rewrite (IH Hs), Hx. reflexivity.
Qed.

Lemma rfind_app_last c a b :
  occurs c b = false -> rfind c (a +:+ String c b) = Z.of_nat (String.length a).
Proof.
  intros Hb. induction a as [|x a IH].
  - rewrite sapp_nil_l. cbn [rfind String.length].
    rewrite (rfind_absent c b Hb), Ascii.eqb_refl. reflexivity.
  - rewrite sapp_cons. cbn [rfind String.length]. rewrite IH.
    destruct (0 <=? Z.of_nat (String.length a))%Z eqn:E; [lia|].
    apply Z.leb_gt in E. lia.
Qed.

Lemma rfind_app_absent c a b :
  occurs c b = false -> rfind c (a +:+ b) = rfind c a.
Proof.
  intros Hb. induction a as [|x a IH].
  - rewrite sapp_nil_l. now apply rfind_absent.
  - rewrite sapp_cons. cbn [rfind]. now rewrite IH.
Qed.

(** A last occurrence splits the string around it. *)
Lemma rfind_found c s :
  (0 <= rfind c s)%Z ->
  exists a b, s = a +:+ String c b /\ occurs c b = false
              /\ rfind c s = Z.of_nat (String.length a).
Proof.
  induction s as [|x s IH]; cbn [rfind]; [lia|].
  destruct (0 <=? rfind c s)%Z eqn:E.
  - intros _. apply Z.leb_le in E. destruct (IH E) as (a & b & -> & Hb & Hr).
    exists (String x a), b. rewrite sapp_cons. repeat split; [exact Hb|].
    rewrite Hr. cbn [String.length]. lia.
  - apply Z.leb_gt in E. destruct (Ascii.eqb_spec x c) as [->|]; [|lia].
    intros _. exists "", s. rewrite sapp_nil_l. repeat split.
    destruct (occurs c s) eqn:O; [|reflexivity]. exfalso.
    clear IH. revert E. clear -O. induction s as [|y s IH]; [discriminate|].
    cbn [rfind occurs] in *. destruct (0 <=? rfind c s)%Z eqn:E'.
    + apply Z.leb_le in E'. lia.
    + apply Z.leb_gt in E'. destruct (Ascii.eqb y c); [lia|].
      cbn [orb] in O. intros _. now apply IH.
Qed.

(** *** [substring] *)

Lemma substring_app_r a b :
  String.substring (String.length a) (String.length b) (a +:+ b) = b.
Proof.
  induction a as [|x a IH].
  - rewrite sapp_nil_l. cbn [String.length].
    induction b as [|y b IHb]; [reflexivity|].
    cbn [String.length String.substring]. now rewrite IHb.
  - rewrite sapp_cons. cbn [String.length String.substring]. exact IH.
Qed.

Lemma substring_at a c b :
  String.substring (String.length a) 1 (a +:+ String c b) = String c "".
Proof.
  induction a as [|x a IH].
  - rewrite sapp_nil_l. cbn [String.length String.substring]. now destruct b.
  - rewrite sapp_cons. cbn [String.length String.substring]. exact IH.
Qed.

(** The loop of [splitext] over the characters between the slash and
    the dot finds one that is not a dot unless all of them are dots. *)
Lemma leading_dots_scan a stem t :
  existsb (fun i => negb (String.eqb (String.substring i 1 (a +:+ stem +:+ t)) "."))
    (seq (String.length a) (String.length stem))
  = negb (all_dots stem).
Proof.
  revert a; induction stem as [|c stem IH]; intros a; [reflexivity|].
  cbn [String.length seq existsb all_dots]. rewrite sapp_cons, substring_at.
  rewrite negb_andb. f_equal.
  - cbn [String.eqb]. now destruct (Ascii.eqb c ".").
  - specialize (IH (a +:+ String c "")).
    rewrite length_app in IH. cbn [String.length] in IH.
    replace (String.length a + 1)%nat with (S (String.length a)) in IH by lia.
    rewrite sapp_assoc, sapp_cons, sapp_nil_l in IH. exact IH.
Qed.

(** *** [join] on the resources directory *)

Lemma endswith_app_slash a t :
  truthy t = true -> endswith (a +:+ t) "/" = endswith t "/".
Proof.
  intros Ht. induction a as [|x a IH]; [reflexivity|].
  rewrite sapp_cons. cbn [endswith]. rewrite IH.
  destruct (a +:+ t) eqn:E.
  - destruct a; [rewrite sapp_nil_l in E; subst; discriminate | discriminate].
  - now destruct (String.eqb_spec (String x (String a0 s)) "/").
Qed.

Lemma join_plain a b :
  startswith b "/" = false -> exists a', join a b = a' +:+ b.
Proof.
  intros H. unfold join. rewrite H.
  destruct (negb (truthy a) || endswith a "/"); [now exists a|].
  exists (a +:+ "/"). now rewrite sapp_assoc.
Qed.

Lemma startswith_slash f : occurs "/" f = false -> startswith f "/" = false.
Proof.
  unfold startswith. destruct f as [|x f]; [reflexivity|].
  cbn [occurs String.prefix]. intros H. apply orb_false_iff in H as [Hx _].
  destruct (ascii_dec "/" x) as [<-|]; [discriminate | reflexivity].
Qed.

(** The path of a name of the listing is the resources directory, a
    slash and the name. *)
Lemma join_resources data_dir f :
  occurs "/" f = false ->
  join (RESOURCES_DIR data_dir) f = RESOURCES_DIR data_dir +:+ "/" +:+ f.
Proof.
  intros Hf. unfold join at 1. rewrite (startswith_slash f Hf).
  destruct (join_plain (ARCHIVE_DIR data_dir) "Endless Learning" eq_refl) as [a' E].
  unfold RESOURCES_DIR. rewrite E.
  rewrite endswith_app_slash by reflexivity.
  assert (T : truthy (a' +:+ "Endless Learning") = true).
  { apply truthy_length. rewrite length_app. cbn [String.length]. lia. }
  now rewrite T.
Qed.

(** *** The extension of the path of a name *)

Lemma splitext_decomposed p pre stem e :
  p = pre +:+ stem +:+ String "." e ->
  rfind "/" p = (Z.of_nat (String.length pre) - 1)%Z ->
  occurs "." e = false ->
  snd (splitext p) = if all_dots stem then "" else String "." e.
Proof.
  intros Ep Esep He.
  assert (Edot : rfind "." p = Z.of_nat (String.length pre + String.length stem)).
  { rewrite Ep, <- sapp_assoc, (rfind_app_last "." (pre +:+ stem) e He).
    now rewrite length_app. }
  assert (Hscan :
    existsb (fun i => negb (String.eqb (String.substring i 1 p) "."))
      (seq (String.length pre) (String.length stem))
    = negb (all_dots stem)) by (rewrite Ep; apply leading_dots_scan).
  assert (Hsub :
    String.substring (String.length pre + String.length stem)
      (String.length p - (String.length pre + String.length stem)) p
    = String "." e).
  { rewrite Ep, <- sapp_assoc, <- length_app.
    replace (String.length ((pre +:+ stem) +:+ String "." e)
             - String.length (pre +:+ stem))%nat
      with (String.length (String "." e)) by (rewrite (length_app (pre +:+ stem)); lia).
    apply substring_app_r. }
  unfold splitext. rewrite Esep, Edot.
  replace (Z.to_nat (Z.of_nat (String.length pre) - 1 + 1)) with (String.length pre)
    by lia.
  replace (Z.to_nat (Z.of_nat (String.length pre + String.length stem))
           - String.length pre)%nat
    with (String.length stem) by lia.
  replace (Z.to_nat (Z.of_nat (String.length pre + String.length stem)))
    with (String.length pre + String.length stem)%nat by lia.
  rewrite Hscan, Hsub.
  replace (Z.of_nat (String.length pre) - 1
           <? Z.of_nat (String.length pre + String.length stem))%Z
    with true by (symmetry; apply Z.ltb_lt; lia).
  now destruct (all_dots stem).
Qed.

Lemma rfind_slash_path dir f :
  occurs "/" f = false ->
  rfind "/" (dir +:+ "/" +:+ f)
  = (Z.of_nat (String.length (dir +:+ "/")) - 1)%Z.
Proof.
  intros Hf. change ("/" +:+ f) with (String "/" f).
  rewrite (rfind_app_last "/" dir f Hf), length_app. cbn [String.length]. lia.
Qed.

Lemma splitext_extension dir f stem e :
  occurs "/" f = false -> occurs "." e = false ->
  f = stem +:+ String "." e -> all_dots stem = false ->
  snd (splitext (dir +:+ "/" +:+ f)) = String "." e.
Proof.
  intros Hf He Ef Hs.
  rewrite (splitext_decomposed (dir +:+ "/" +:+ f) (dir +:+ "/") stem e).
  - now rewrite Hs.
  - now rewrite Ef, !sapp_assoc.
  - now apply rfind_slash_path.
  - exact He.
Qed.

Lemma splitext_extension_inv dir f ext :
  occurs "/" f = false ->
  snd (splitext (dir +:+ "/" +:+ f)) = ext -> truthy ext = true ->
  exists stem e,
    ext = String "." e /\ occurs "." e = false
    /\ f = stem +:+ ext /\ all_dots stem = false.
Proof.
  intros Hf E T.
  pose proof (rfind_slash_path dir f Hf) as Esep.
  assert (Lt : (rfind "/" (dir +:+ "/" +:+ f) < rfind "." (dir +:+ "/" +:+ f))%Z).
  { unfold splitext in E.
    destruct (rfind "/" (dir +:+ "/" +:+ f) <? rfind "." (dir +:+ "/" +:+ f))%Z eqn:L;
      [now apply Z.ltb_lt in L|].
    cbn [andb snd] in E. subst ext. discriminate. }
  pose proof (rfind_range "/" (dir +:+ "/" +:+ f)) as Rs.
  destruct (rfind_found "." (dir +:+ "/" +:+ f)) as (a & e & Ep & He & Ed); [lia|].
  assert (La : (String.length (dir +:+ "/") <= String.length a)%nat) by lia.
  assert (Ep' : (dir +:+ "/") +:+ f = a +:+ String "." e)
    by now rewrite sapp_assoc.
  destruct (sapp_split _ _ _ _ Ep' La) as (stem & Ea & Ef).
  rewrite (splitext_decomposed (dir +:+ "/" +:+ f) (dir +:+ "/") stem e) in E;
    [| now rewrite Ef, !sapp_assoc | exact Esep | exact He].
  exists stem, e. destruct (all_dots stem); [subst ext; discriminate|].
  subst ext. now repeat split.
Qed.

End Paths.

(** * The topic tree (lines 88-105) *)

(** X11.  For a file name without a slash, the node made for an entry
    is a video node exactly when the name ends in ".mp4", in this very
    case, after a stem that is not made of dots only; every other name
    (".mov", ".MP4", ".pdf", a name that is just ".mp4") gives a
    document node. *)
Theorem video_node_iff_mp4_extension data_dir (c : content) :
  occurs "/" (file c) = false ->
  (is_video (make_node data_dir c) = true
   <-> exists stem, file c = stem +:+ ".mp4" /\ all_dots stem = false).
Proof.
  intros Hf. unfold make_node. rewrite (join_resources data_dir (file c) Hf).
  set (dir := RESOURCES_DIR data_dir).
  destruct (String.eqb_spec (snd (splitext (dir +:+ "/" +:+ file c))) ".mp4")
    as [E|Hne]; cbn [is_video].
  - split; [intros _|reflexivity].
    destruct (splitext_extension_inv dir (file c) ".mp4" Hf E eq_refl)
      as (stem & e & _ & _ & Ef & Hs).
    now exists stem.
  - split; [discriminate|]. intros (stem & Ef & Hs). exfalso. apply Hne.
    now apply (splitext_extension dir (file c) stem "mp4").
Qed.

Lemma video_node_iff_mp4_extension_witness :
  is_video (make_node "/home/chef/chefdata"
              {| title := "Foo"; file := "SH.ANIM.Foo.mp4" |}) = true
  <-> exists stem, "SH.ANIM.Foo.mp4" = stem +:+ ".mp4" /\ all_dots stem = false.
Proof.
  apply (video_node_iff_mp4_extension "/home/chef/chefdata"
           {| title := "Foo"; file := "SH.ANIM.Foo.mp4" |}).
  reflexivity.
Defined.

(** Names that give a document node although they hold a video. *)
Example document_nodes_for_videos :
  is_video (make_node "/home/chef/chefdata"
              {| title := "Foo"; file := "SH.ANIM.Foo.MP4" |}) = false
  /\ is_video (make_node "/home/chef/chefdata"
                 {| title := "Foo"; file := "SH.ANIM.Foo.mov" |}) = false
  /\ make_node "/home/chef/chefdata" {| title := "Foo"; file := "SH.ANIM.Foo.mp4" |}
     = VideoNode "SH.ANIM.Foo.mp4" "Foo" "Mother Goose Club"
         "/home/chef/chefdata/downloads/archive_1/Endless Learning/SH.ANIM.Foo.mp4".
Proof. repeat split; reflexivity. Qed.

(** X12.  [construct_channel] raises the [KeyError] of the first cell,
    in the order of the visit, that is not empty and whose category the
    table does not know (every cell before it is empty or of a known
    category), and then builds no topic.
    Otherwise it builds one topic for each category with at least one
    cell bound to a file, and none for the other categories; the topic
    carries the category as source id and title, and its children are
    the nodes of the bound cells of the category in the order of the
    visit. *)
Theorem channel_topics_follow_bound_cells sheet resources data_dir :
  match construct_channel sheet resources data_dir with
  | Raised e =>
      exists before rc after,
        cells sheet = before ++ rc :: after
        /\ (forall x, In x before -> unconfigured sheet x = false)
        /\ unconfigured sheet rc = true
        /\ e = KeyError (cell_type sheet (snd rc))
  | Returned topics =>
      (forall rc, In rc (cells sheet) -> unconfigured sheet rc = false)
      /\ forall type,
           topics !! type
           = match entries_of type (map (cell_result_of sheet resources) (cells sheet))
             with
             | [] => None
             | l => Some (make_topic data_dir type l)
             end
  end.
Proof.
  unfold construct_channel.
  pose proof (load_trace sheet resources) as [G _].
  destruct (before_abort_split sheet (cells sheet)) as (rest & E & Hb & Hr).
  assert (Hin : forall x, In x (before_abort sheet (cells sheet)) -> In x (cells sheet)).
  { intros x Hx. rewrite E. apply in_or_app. now left. }
  assert (Hret : fst (run_cells sheet resources (before_abort sheet (cells sheet)) fresh)
                 = Returned tt).
  { apply for_each_returns. intros x s' Hx.
    apply visit_configured; [now apply Hin | now apply Hb]. }
  assert (Hload : fst (load_content_from_spreadsheet sheet resources fresh)
                  = match rest with
                    | [] => Returned tt
                    | rc :: _ => Raised (KeyError (cell_type sheet (snd rc)))
                    end).
  { rewrite load_run_cells. rewrite E at 1. unfold run_cells in *.
    rewrite for_each_app.
    destruct (for_each (before_abort sheet (cells sheet)) _ fresh) as [o s1].
    cbn [fst] in Hret. subst o. destruct rest as [|rc rest]; [reflexivity|].
    rewrite for_each_cons, visit_unconfigured; [reflexivity | | exact Hr].
    rewrite E. apply in_or_app. right. now left. }
  destruct (load_content_from_spreadsheet sheet resources fresh) as [o s].
  cbn [fst snd] in *. subst o. destruct rest as [|rc rest].
  - rewrite app_nil_r in E. rewrite <- E in *. split; [exact Hb|].
    intros type. rewrite map_lookup_imap, (G type).
    now destruct (entries_of type (map (cell_result_of sheet resources) (cells sheet))).
  - exists (before_abort sheet (cells sheet)), rc, rest.
    repeat split; [exact E | exact Hb | exact Hr].
Qed.

(** [construct_channel] on a sheet with a video, a document and a
    title without a file. *)
Example construct_channel_example :
  construct_channel
    (sheet_of_rows [ [Some "SH Videos"; Some "Board Books"];
                     [Some "Foo (Live)"; Some "Goldilocks"];
                     [Some "Missing"; None] ])
    ["SH.LIVE.Foo.mp4"; "Board Book.Goldilocks.pdf"] "/home/chef/chefdata"
  = Returned
      {[ "SH Videos" :=
           {| topic_source_id := "SH Videos";
              topic_title := "SH Videos";
              children :=
                [ VideoNode "SH.LIVE.Foo.mp4" "Foo (Live)" "Mother Goose Club"
                    "/home/chef/chefdata/downloads/archive_1/Endless Learning/SH.LIVE.Foo.mp4" ] |};
         "Board Books" :=
           {| topic_source_id := "Board Books";
              topic_title := "Board Books";
              children :=
                [ DocumentNode "Board Book.Goldilocks.pdf" "Goldilocks" "Mother Goose Club"
                    "/home/chef/chefdata/downloads/archive_1/Endless Learning/Board Book.Goldilocks.pdf" ] |} ]}.
Proof. reflexivity. Qed.

(** Two columns the table does not know: the [KeyError] is that of the
    cell visited first. *)
Example construct_channel_first_key_error :
  construct_channel
    (sheet_of_rows [ [Some "Unknown"; Some "Unheard"];
                     [Some "x"; Some "y"] ])
    [] "/home/chef/chefdata"
  = Raised (KeyError "Unknown").
Proof. reflexivity. Qed.

(** * The substitution branch (lines 160-164) *)

(** X13.  Of the names that match a candidate prefix through a
    substitution only, the last one of the listing counts: the scan
    hands it to the loop over the direct matches whatever file was kept
    before, be it shorter or a direct match of an earlier candidate.
    The file kept after this candidate is then the first of the
    shortest among that name and the direct matches that are not .mov
    files, the name coming first. *)
Theorem last_fallback_match_is_retained p resources l1 g l2 rf :
  resources = l1 ++ g :: l2 ->
  fallback_only p g = true ->
  (forall x, In x l2 -> fallback_only p x = false) ->
  truthy p = true -> truthy g = true ->
  scan_resources p resources rf = (List.filter (direct_match p) resources, Some g)
  /\ search_prefix resources rf p
     = first_shortest (g :: List.filter (eligible p) resources).
Proof.
  intros -> Hg Hl2 Tp Tg.
  assert (E : scan_resources p (l1 ++ g :: l2) rf
              = (List.filter (direct_match p) (l1 ++ g :: l2), Some g)).
  { rewrite scan_resources_spec. f_equal.
    rewrite fold_left_app. cbn [fold_left]. rewrite Hg.
    clear -Hl2. induction l2 as [|x l2 IH]; [reflexivity|].
    cbn [fold_left]. rewrite (Hl2 x) by now left.
    apply IH. intros y Hy. apply Hl2. now right. }
  split; [exact E|].
  unfold search_prefix. rewrite E. cbn [fst snd].
  rewrite select_skips_mov, filter_filter.
  apply select_first_shortest_from; [|exact Tg].
  intros x Hx. apply filter_In in Hx as [_ He].
  apply andb_true_iff in He as [Hd Hm].
  split; [now apply (direct_match_truthy p) | now apply negb_true_iff].
Qed.

Lemma last_fallback_match_is_retained_witness :
  scan_resources "Board Book.A, B."
    ["Board Book.A B.pdf"; "Board Book.A, B.Long Edition.pdf"; "Board Book.A B.Second.pdf"]
    (Some "Board Book.Z.pdf")
  = (List.filter (direct_match "Board Book.A, B.")
       ["Board Book.A B.pdf"; "Board Book.A, B.Long Edition.pdf";
        "Board Book.A B.Second.pdf"],
     Some "Board Book.A B.Second.pdf")
  /\ search_prefix
       ["Board Book.A B.pdf"; "Board Book.A, B.Long Edition.pdf";
        "Board Book.A B.Second.pdf"]
       (Some "Board Book.Z.pdf") "Board Book.A, B."
     = first_shortest
         ("Board Book.A B.Second.pdf"
          :: List.filter (eligible "Board Book.A, B.")
               ["Board Book.A B.pdf"; "Board Book.A, B.Long Edition.pdf";
                "Board Book.A B.Second.pdf"]).
Proof.
  apply (last_fallback_match_is_retained "Board Book.A, B." _
           ["Board Book.A B.pdf"; "Board Book.A, B.Long Edition.pdf"]
           "Board Book.A B.Second.pdf" []).
  - reflexivity.
  - reflexivity.
  - intros x [].
  - reflexivity.
  - reflexivity.
Defined.
